(** * Nedlia performance-test harness: consistency probe and event producer

    A shallow embedding of
    - [tools/performance-tests/consistency/consistency_test.py]
      (class [ConsistencyTester]) and
    - [tools/performance-tests/producers/event_producer.py]
      (class [EventProducer]),
    followed by the properties of the harness stated over it.

    Conventions of the embedding.
    - Python [float]s (clock readings, latencies, the SLO, rates) are exact
      rationals [Q]: rounding is not modelled.
    - A Python [dict] with string keys is a [gmap string value].
    - A coroutine is a computation in the monad [M] of its module: it
      threads a world (clock and a log of the calls made) and may raise.
      What the outside does (HTTP responses, the event bus, how long a call
      or a sleep really takes, uuid4) is read from an oracle record. *)

From Stdlib Require Import QArith Qround Qminmax Lia Lqa Sorted.
From stdpp Require Import gmap strings list fin_maps pretty.

Open Scope Z_scope.

(** ** Python values and exceptions *)

(** The values the harness stores in its result dictionaries. *)
Inductive value :=
| VStr (s : string)
| VNum (q : Q)
| VInt (z : Z)
| VBool (b : bool).

(** Python truthiness, as used by [if x:] and by the generator filters. *)
Definition truthy (v : value) : bool :=
  match v with
  | VStr s => negb (String.eqb s "")
  | VNum q => negb (Qeq_bool q 0)
  | VInt z => negb (z =? 0)
  | VBool b => b
  end.

(** [bool(d.get(k))]: a missing key gives [None], which is falsy. *)
Definition get_truthy (d : gmap string value) (k : string) : bool :=
  from_option truthy false (d !! k).

Inductive exn :=
| KeyError (k : string)
| IndexError
| TypeError
| ZeroDivisionError
| OtherError (msg : string).

(** What evaluating an expression gives: a value or an exception. *)
Inductive result (A : Type) :=
| Ok (a : A)
| Err (e : exn).
Arguments Ok {A} a.
Arguments Err {A} e.

#[global] Instance result_ret : MRet result := λ A a, Ok a.

#[global] Instance result_bind : MBind result := λ A B k r,
  match r with
  | Ok a => k a
  | Err e => Err e
  end.

(** What running a coroutine gives: a value, an exception, or (for the
    fuelled loops only) no answer within the fuel. *)
Inductive outcome (A : Type) :=
| Returned (a : A)
| Raised (e : exn)
| OutOfFuel.
Arguments Returned {A} a.
Arguments Raised {A} e.
Arguments OutOfFuel {A}.

Definition outcome_of {A} (r : result A) : outcome A :=
  match r with
  | Ok a => Returned a
  | Err e => Raised e
  end.

(** [d[k]] *)
Definition getitem (d : gmap string value) (k : string) : result value :=
  match d !! k with
  | Some v => Ok v
  | None => Err (KeyError k)
  end.

(** [l[i]] on a list, negative indices counting from the end. *)
Definition py_index {A} (l : list A) (i : Z) : result A :=
  let n := Z.of_nat (length l) in
  let j := if i <? 0 then i + n else i in
  if (0 <=? j) && (j <? n) then
    match l !! Z.to_nat j with
    | Some x => Ok x
    | None => Err IndexError
    end
  else Err IndexError.

(** [int(x)] on a float: truncation toward zero. *)
Definition int_ (x : Q) : Z := Z.quot (Qnum x) (Zpos (Qden x)).

(** [x / y] on floats. *)
Definition truediv (x y : Q) : result Q :=
  if Qeq_bool y 0 then Err ZeroDivisionError else Ok (x / y)%Q.

(** [x % y] on ints (the sign of the result follows the divisor, as
    [Z.modulo]). *)
Definition py_mod (x y : Z) : result Z :=
  if y =? 0 then Err ZeroDivisionError else Ok (x mod y).

Definition Qlt_bool (x y : Q) : bool := negb (Qle_bool y x).

(** [max(a, b)] and [min(a, b)]: the first argument wins ties. *)
Definition max2 (a b : Q) : Q := if Qlt_bool a b then b else a.
Definition min2 (a b : Q) : Q := if Qlt_bool b a then b else a.

(** [max(l)] and [min(l)] on a non-empty list (first extremal element). *)
Definition py_max (l : list Q) : result Q :=
  match l with
  | [] => Err (OtherError "max() arg is an empty sequence")
  | x :: l' => Ok (foldl max2 x l')
  end.

Definition py_min (l : list Q) : result Q :=
  match l with
  | [] => Err (OtherError "min() arg is an empty sequence")
  | x :: l' => Ok (foldl min2 x l')
  end.

(** [sorted(l)]: a stable sort by [<=]. *)
Fixpoint insert_sorted (x : Q) (l : list Q) : list Q :=
  match l with
  | [] => [x]
  | y :: l' => if Qle_bool x y then x :: y :: l' else y :: insert_sorted x l'
  end.

Definition sorted (l : list Q) : list Q := foldr insert_sorted [] l.

(** The number behind a value in arithmetic and comparisons ([True] is 1);
    a string is not a number. *)
Definition as_number (v : value) : result Q :=
  match v with
  | VNum q => Ok q
  | VInt z => Ok (inject_Z z)
  | VBool b => Ok (if b then 1 else 0)%Q
  | VStr _ => Err TypeError
  end.

(** [[f(x) for x in l]] where [f] may raise. *)
Fixpoint traverse {A B} (f : A → result B) (l : list A) : result (list B) :=
  match l with
  | [] => Ok []
  | x :: l' => y ← f x; ys ← traverse f l'; Ok (y :: ys)
  end.

(** [sum(1 for r in l if p(r))] *)
Definition count_if {A} (p : A → bool) (l : list A) : Z :=
  Z.of_nat (length (filter (λ r, p r = true) l)).

(** ** consistency_test.py: [ConsistencyTester] *)

Module Consistency.

(** An HTTP response as far as the probe reads it: the status code and
    what [response.json()] gives, which either raises or is an object whose
    ["data"] member, when there is one, is the given dictionary. (A body
    whose ["data"] is not an object makes both readers of the body raise;
    it is covered by the raising case.) *)
Record Response := {
  status_code : Z;
  json : result (option (gmap string value))
}.

(** The outside of one probe invocation: the answer to its POST, to its
    k-th GET (k counted from 1), how long each call takes, by how much the
    k-th [asyncio.sleep] overruns the requested time (other coroutines of
    the batch run meanwhile), the uuid4 it draws and the clock reading when
    it starts. *)
Record ApiClient := {
  post : result Response;
  post_secs : Q;
  get : Z → result Response;
  get_secs : Z → Q;
  sleep_lag : Z → Q;
  uuid4 : string;
  boot_time : Q
}.

Inductive Event :=
| EvPost (correlation_id : string)
| EvSleep (seconds : Q)
| EvGet (placement_id : value).

(** The world of one invocation: the clock, and the calls made so far (most
    recent last). *)
Record World := { now : Q; trace : list Event }.

Definition M (A : Type) : Type := World → outcome A * World.

#[export] Instance M_ret : MRet M := λ A a w, (Returned a, w).

#[export] Instance M_bind : MBind M := λ A B k m w,
  match m w with
  | (Returned a, w') => k a w'
  | (Raised e, w') => (Raised e, w')
  | (OutOfFuel, w') => (OutOfFuel, w')
  end.

Definition lift {A} (r : result A) : M A := λ w, (outcome_of r, w).

Definition out_of_fuel {A} : M A := λ w, (OutOfFuel, w).

(** [try: m  except Exception: h] *)
Definition try_except {A} (m : M A) (h : M A) : M A :=
  λ w, match m w with
       | (Raised _, w') => h w'
       | r => r
       end.

Definition log (e : Event) : M unit :=
  λ w, (Returned tt, {| now := now w; trace := trace w ++ [e] |}).

Definition tick (d : Q) : M unit :=
  λ w, (Returned tt, {| now := (now w + d)%Q; trace := trace w |}).

(** [time.time()] *)
Definition time_time : M Q := λ w, (Returned (now w), w).

(** [await asyncio.sleep(d)] in the k-th iteration. *)
Definition asyncio_sleep (api : ApiClient) (k : Z) (d : Q) : M unit :=
  log (EvSleep d);; tick (Qmax 0 d + sleep_lag api k).

(** [await self.api.post("/v1/placements", json={...})] *)
Definition api_post (api : ApiClient) (correlation_id : string) : M Response :=
  log (EvPost correlation_id);; tick (post_secs api);; lift (post api).

(** [await self.api.get(f"/v1/placements/{placement_id}")], the k-th one. *)
Definition api_get (api : ApiClient) (k : Z) (placement_id : value) : M Response :=
  log (EvGet placement_id);; tick (get_secs api k);; lift (get api k).

(** [response.json()["data"]["id"]] *)
Definition json_data_id (response : Response) : result value :=
  body ← json response;
  match body with
  | Some data => getitem data "id"
  | None => Err (KeyError "data")
  end.

(** The body of the [try] block of the polling loop: the new value of
    [consistent]. *)
Definition poll_once (api : ApiClient) (poll_count : Z) (placement_id : value)
    (consistent : bool) : M bool :=
  placement ← api_get api poll_count placement_id;
  if status_code placement =? 200 then
    body ← lift (json placement);
    let data := default ∅ body in
    if get_truthy data "file_url" then mret true else mret consistent
  else mret consistent.

(** [while not consistent and poll_count < max_polls: ...], returning the
    final [(consistent, poll_count)]. Each pass uses one unit of [fuel]; the
    loop makes at most [max_polls - poll_count] passes. *)
Fixpoint poll_loop (fuel : nat) (api : ApiClient) (placement_id : value)
    (max_polls : Z) (consistent : bool) (poll_count : Z) : M (bool * Z) :=
  if negb consistent && (poll_count <? max_polls) then
    match fuel with
    | O => out_of_fuel
    | S fuel' =>
        asyncio_sleep api (poll_count + 1) (1 # 10);;
        let poll_count := poll_count + 1 in
        consistent ← try_except (poll_once api poll_count placement_id consistent)
                                (mret consistent);
        poll_loop fuel' api placement_id max_polls consistent poll_count
    end
  else mret (consistent, poll_count).

(** [ConsistencyTester._single_consistency_test]; [slo] is [self.slo]. *)
Definition _single_consistency_test (slo : Q) (api : ApiClient)
    : M (gmap string value) :=
  let correlation_id := uuid4 api in
  start_time ← time_time;
  response ← api_post api correlation_id;
  if negb (status_code response =? 201) then
    mret (<["correlation_id" := VStr correlation_id]>
         (<["error" := VStr ("Create failed: " +:+ pretty (status_code response))]>
         (<["consistent" := VBool false]>
         (<["within_slo" := VBool false]> ∅))))
  else
    placement_id ← lift (json_data_id response);
    write_time ← time_time;
    let max_polls := int_ (slo * 10) in
    '(consistent, poll_count) ←
      poll_loop (Z.to_nat max_polls) api placement_id max_polls false 0;
    end_time ← time_time;
    mret (<["correlation_id" := VStr correlation_id]>
         (<["placement_id" := placement_id]>
         (<["write_latency_ms" := VNum ((write_time - start_time) * 1000)]>
         (<["consistency_latency_ms" := VNum ((end_time - start_time) * 1000)]>
         (<["consistent" := VBool consistent]>
         (<["within_slo" := VBool (Qle_bool (end_time - start_time) slo)]>
         (<["poll_count" := VInt poll_count]> ∅))))))).

(** One task of the batch, run from the moment it is started. *)
Definition run_task (slo : Q) (api : ApiClient)
    : outcome (gmap string value) * World :=
  _single_consistency_test slo api {| now := boot_time api; trace := [] |}.

(** [r["consistency_latency_ms"]], as the number it is compared by. *)
Definition latency_of (r : gmap string value) : result Q :=
  getitem r "consistency_latency_ms" ≫= as_number.

(** The list [latencies] of [_analyze_results]. *)
Definition consistent_latencies (results : list (gmap string value))
    : result (list Q) :=
  traverse latency_of (filter (λ r, get_truthy r "consistent" = true) results).

(** [ConsistencyTester._analyze_results]; [results] is [self.results]. *)
Definition _analyze_results (results : list (gmap string value))
    : result (gmap string value) :=
  match results with
  | [] => Ok (<["error" := VStr "No results"]> ∅)
  | _ =>
    latencies ← consistent_latencies results;
    match latencies with
    | [] =>
      Ok (<["total_events" := VInt (Z.of_nat (length results))]>
               (<["consistent_count" := VInt 0]>
               (<["slo_percentage" := VInt 0]>
               (<["error" := VStr "No events reached consistency"]> ∅))))
    | _ =>
      let sorted_latencies := sorted latencies in
      let n := Z.of_nat (length sorted_latencies) in
      let total := Z.of_nat (length results) in
      let within := count_if (λ r, get_truthy r "within_slo") results in
      ratio ← truediv (inject_Z within) (inject_Z total);
      p50 ← py_index sorted_latencies (n / 2);
      p90 ← py_index sorted_latencies (int_ (inject_Z n * (9 # 10)));
      p99 ← (if 100 <? n
             then py_index sorted_latencies (int_ (inject_Z n * (99 # 100)))
             else py_index sorted_latencies (-1));
      max_latency ← py_max latencies;
      min_latency ← py_min latencies;
      Ok
        (<["total_events" := VInt total]>
        (<["consistent_count" :=
             VInt (count_if (λ r, get_truthy r "consistent") results)]>
        (<["within_slo_count" := VInt within]>
        (<["slo_percentage" := VNum (ratio * 100)]>
        (<["p50_latency_ms" := VNum p50]>
        (<["p90_latency_ms" := VNum p90]>
        (<["p99_latency_ms" := VNum p99]>
        (<["max_latency_ms" := VNum max_latency]>
        (<["min_latency_ms" := VNum min_latency]> ∅)))))))))
    end
  end.

(** [[r for r in results if isinstance(r, dict)]] *)
Fixpoint dicts_only {A} (results : list (outcome A)) : list A :=
  match results with
  | [] => []
  | Returned r :: rest => r :: dicts_only rest
  | _ :: rest => dicts_only rest
  end.

(** [asyncio.gather] of the tasks with [return_exceptions=True], one task per
    element of [apis]: in the order of the tasks, the dictionary each
    returned or the exception it raised. *)
Definition gather (slo : Q) (apis : list ApiClient)
    : list (outcome (gmap string value)) :=
  map (λ api, fst (run_task slo api)) apis.

(** The dictionary a task returns, when it returns one. *)
Definition task_result (slo : Q) (api : ApiClient) : option (gmap string value) :=
  match run_task slo api with
  | (Returned d, _) => Some d
  | _ => None
  end.

(** [ConsistencyTester.test_placement_consistency]; [num_events] is the
    length of [apis]. *)
Definition test_placement_consistency (slo : Q) (apis : list ApiClient)
    : result (gmap string value) :=
  let results := gather slo apis in
  let results := dicts_only results in
  _analyze_results results.

(** The check the polling loop makes on the answer to one GET: the call
    returned, with status 200 and a truthy ["file_url"] in the data of its
    body. *)
Definition file_url_populated (r : result Response) : bool :=
  match r with
  | Ok placement =>
      (status_code placement =? 200) &&
      match json placement with
      | Ok body => get_truthy (default ∅ body) "file_url"
      | Err _ => false
      end
  | Err _ => false
  end.

(** The calls made by [n] rounds of the polling loop. *)
Definition polls (placement_id : value) (n : nat) : list Event :=
  concat (replicate n [EvSleep (1 # 10); EvGet placement_id]).

(** The keys under which [_analyze_results] reports latency statistics. *)
Definition latency_stat_keys : list string :=
  ["p50_latency_ms"; "p90_latency_ms"; "p99_latency_ms";
   "max_latency_ms"; "min_latency_ms"].

(** The shape of every dictionary the probe returns: one marked consistent
    carries its latency. *)
Definition probe_result (d : gmap string value) : Prop :=
  get_truthy d "consistent" = true →
  ∃ q, d !! "consistency_latency_ms" = Some (VNum q).

End Consistency.

(** ** event_producer.py: [EventProducer] *)

Module Producer.

Module ProducerConfig.
Record t := mk {
  events_per_second : Z;
  duration_seconds : Z;
  event_type : string;
  ramp_up_seconds : Z;
  event_bus_name : string
}.
End ProducerConfig.

Module ProducerReport.
Record t := mk {
  test_run_id : string;
  total_events : Z;
  target_rate : Z;
  actual_rate : Q;
  duration_seconds : Q;
  errors : Z
}.
End ProducerReport.

(** The dictionary built by [_create_event]. *)
Module SyntheticEvent.
Record t := mk {
  id : string;
  correlation_id : string;
  test_run_id : string;
  type : string;
  produced_at : Q;
  produced_at_iso : string;
  data_video_id : string;
  data_product_id : string;
  data_time_range : Z * Z
}.
End SyntheticEvent.

(** The outside of a producer: the exception the k-th [put_events] call
    raises, if any, how long that call takes, by how much the k-th
    [asyncio.sleep] overruns, the k-th uuid4 and the formatting of a clock
    reading by [strftime] (k counted from 0 over the life of the process). *)
Record Env := {
  put_events : nat → option exn;
  put_secs : nat → Q;
  sleep_lag : nat → Q;
  uuid4 : nat → string;
  strftime : Q → string
}.

(** The fields of the [EventProducer] object. *)
Record EventProducer := {
  config : ProducerConfig.t;
  test_run_id : string;
  produced_events : list SyntheticEvent.t;
  errors : Z
}.

(** The clock and the number of calls made so far to the bus, to
    [asyncio.sleep] and to [uuid4]. *)
Record World := { now : Q; puts : nat; sleeps : nat; uuids : nat }.

Record State := { self : EventProducer; world : World }.

Definition M (A : Type) : Type := State → outcome A * State.

#[export] Instance M_ret : MRet M := λ A a s, (Returned a, s).

#[export] Instance M_bind : MBind M := λ A B k m s,
  match m s with
  | (Returned a, s') => k a s'
  | (Raised e, s') => (Raised e, s')
  | (OutOfFuel, s') => (OutOfFuel, s')
  end.

Definition lift {A} (r : result A) : M A := λ s, (outcome_of r, s).

Definition out_of_fuel {A} : M A := λ s, (OutOfFuel, s).

Definition get_self : M EventProducer := λ s, (Returned (self s), s).

Definition set_world (s : State) (w : World) : State :=
  {| self := self s; world := w |}.

Definition tick (d : Q) (w : World) : World :=
  {| now := (now w + d)%Q; puts := puts w; sleeps := sleeps w; uuids := uuids w |}.

(** [time.time()] *)
Definition time_time : M Q := λ s, (Returned (now (world s)), s).

(** [str(uuid4())] *)
Definition str_uuid4 (env : Env) : M string := λ s,
  let w := world s in
  (Returned (uuid4 env (uuids w)),
   set_world s {| now := now w; puts := puts w; sleeps := sleeps w;
                  uuids := S (uuids w) |}).

(** [await asyncio.sleep(d)]: a non-positive delay only yields. *)
Definition asyncio_sleep (env : Env) (d : Q) : M unit := λ s,
  let w := world s in
  (Returned tt,
   set_world s (tick (Qmax 0 d + sleep_lag env (sleeps w))
                  {| now := now w; puts := puts w; sleeps := S (sleeps w);
                     uuids := uuids w |})).

(** [self.produced_events.append(event)] *)
Definition append_event (event : SyntheticEvent.t) : M unit := λ s,
  let p := self s in
  (Returned tt,
   {| self := {| config := config p; test_run_id := test_run_id p;
                 produced_events := produced_events p ++ [event];
                 errors := errors p |};
      world := world s |}).

(** [self.errors += 1] *)
Definition incr_errors : M unit := λ s,
  let p := self s in
  (Returned tt,
   {| self := {| config := config p; test_run_id := test_run_id p;
                 produced_events := produced_events p;
                 errors := errors p + 1 |};
      world := world s |}).

(** [EventProducer.__init__] *)
Definition __init__ (config : ProducerConfig.t) (w : World) : State :=
  {| self := {| config := config;
                test_run_id := "perf_" +:+ pretty (int_ (now w));
                produced_events := [];
                errors := 0 |};
     world := w |}.

(** [EventProducer._create_event] *)
Definition _create_event (env : Env) : M SyntheticEvent.t :=
  id ← str_uuid4 env;
  correlation_id ← str_uuid4 env;
  p ← get_self;
  produced_at ← time_time;
  t ← time_time;
  video_id ← str_uuid4 env;
  product_id ← str_uuid4 env;
  mret (SyntheticEvent.mk id correlation_id (test_run_id p)
          (ProducerConfig.event_type (config p)) produced_at (strftime env t)
          video_id product_id (0, 30)).

(** [EventProducer._publish_event]: an exception of the bus is caught and
    reported as [False]. *)
Definition _publish_event (env : Env) (event : SyntheticEvent.t) : M bool := λ s,
  let w := world s in
  let s' := set_world s (tick (put_secs env (puts w))
                           {| now := now w; puts := S (puts w);
                              sleeps := sleeps w; uuids := uuids w |}) in
  match put_events env (puts w) with
  | None => (Returned true, s')
  | Some _ => (Returned false, s')
  end.

(** The ramp-up logic of [run]: [current_rate] for a given [elapsed]. *)
Definition current_rate (config : ProducerConfig.t) (elapsed : Q) : result Q :=
  let events_per_second := inject_Z (ProducerConfig.events_per_second config) in
  let ramp_up_seconds := inject_Z (ProducerConfig.ramp_up_seconds config) in
  if Qlt_bool elapsed ramp_up_seconds then
    fraction ← truediv elapsed ramp_up_seconds;
    Ok (max2 1 (events_per_second * fraction))
  else Ok events_per_second.

(** [interval = 1.0 / current_rate] *)
Definition interval (config : ProducerConfig.t) (elapsed : Q) : result Q :=
  rate ← current_rate config elapsed;
  truediv 1 rate.

(** One pass through the body of the [while] loop of [run], returning the
    new [events_sent]. Console output is not modelled; the [%] of the
    progress check is evaluated. *)
Definition run_iteration (env : Env) (start_time : Q) (events_sent : Z) : M Z :=
  t ← time_time;
  let elapsed := (t - start_time)%Q in
  p ← get_self;
  interval ← lift (interval (config p) elapsed);
  event ← _create_event env;
  success ← _publish_event env event;
  (if success : bool then append_event event else incr_errors);;
  let events_sent := events_sent + 1 in
  asyncio_sleep env interval;;
  lift (py_mod events_sent (ProducerConfig.events_per_second (config p) * 10));;
  mret events_sent.

(** [while events_sent < total_events: ...] of [run]. Each pass uses one
    unit of [fuel]; the loop makes [total_events - events_sent] passes. *)
Fixpoint run_loop (fuel : nat) (env : Env) (start_time : Q)
    (total_events events_sent : Z) : M unit :=
  if events_sent <? total_events then
    match fuel with
    | O => out_of_fuel
    | S fuel' =>
        events_sent ← run_iteration env start_time events_sent;
        run_loop fuel' env start_time total_events events_sent
    end
  else mret tt.

(** [EventProducer.run]. Console output is not modelled. *)
Definition run (env : Env) : M ProducerReport.t :=
  p ← get_self;
  let total_events :=
    ProducerConfig.events_per_second (config p)
    * ProducerConfig.duration_seconds (config p) in
  start_time ← time_time;
  run_loop (Z.to_nat total_events) env start_time total_events 0;;
  end_time ← time_time;
  let actual_duration := (end_time - start_time)%Q in
  p ← get_self;
  let published := inject_Z (Z.of_nat (length (produced_events p))) in
  actual_rate ← lift (truediv published actual_duration);
  mret (ProducerReport.mk (test_run_id p)
          (Z.of_nat (length (produced_events p)))
          (ProducerConfig.events_per_second (config p))
          actual_rate actual_duration (errors p)).

(** How many of the [n] calls to the bus from the k-th on succeed. *)
Fixpoint successes (env : Env) (k n : nat) : nat :=
  match n with
  | O => O
  | S n' =>
      (match put_events env k with None => 1 | Some _ => 0 end
       + successes env (S k) n')%nat
  end.

End Producer.

(** ** Concrete inputs used by the examples below *)

Module Examples.
Import Consistency Producer.

(** A write that is accepted with identifier ["p1"]. *)
Definition accepted : Response :=
  {| status_code := 201; json := Ok (Some (<["id" := VStr "p1"]> ∅)) |}.

(** A read of a placement whose file has not been generated yet. *)
Definition pending : Response :=
  {| status_code := 200; json := Ok (Some (<["id" := VStr "p1"]> ∅)) |}.

(** A write refused by the server. *)
Definition rejected : Response :=
  {| status_code := 500; json := Err (OtherError "not JSON") |}.

(** A system under test that accepts the write in 10 ms, answers each read
    in 4 ms and never populates [file_url]. *)
Definition stalled_api : ApiClient :=
  {| post := Ok accepted; post_secs := 1 # 100;
     get := λ _, Ok pending; get_secs := λ _, 1 # 250;
     Consistency.sleep_lag := λ _, 0%Q;
     Consistency.uuid4 := "c-1"; boot_time := 0 |}.

(** A system under test that refuses the write. *)
Definition rejecting_api : ApiClient :=
  {| post := Ok rejected; post_secs := 1 # 100;
     get := λ _, Ok pending; get_secs := λ _, 1 # 250;
     Consistency.sleep_lag := λ _, 0%Q;
     Consistency.uuid4 := "c-2"; boot_time := 0 |}.

(** A system under test that cannot be reached. *)
Definition unreachable_api : ApiClient :=
  {| post := Err (OtherError "connection refused"); post_secs := 1 # 100;
     get := λ _, Err (OtherError "connection refused"); get_secs := λ _, 0%Q;
     Consistency.sleep_lag := λ _, 0%Q;
     Consistency.uuid4 := "c-3"; boot_time := 0 |}.

(** A probe result that reached consistency with the given latency. *)
Definition consistent_after (latency_ms : Q) : gmap string value :=
  <["consistency_latency_ms" := VNum latency_ms]>
  (<["consistent" := VBool true]>
  (<["within_slo" := VBool true]> ∅)).

(** A probe result that never reached consistency. *)
Definition never_consistent : gmap string value :=
  <["consistency_latency_ms" := VNum 5100]>
  (<["consistent" := VBool false]>
  (<["within_slo" := VBool false]> ∅)).

(** An event bus that accepts every event, at once. *)
Definition healthy_bus : Env :=
  {| put_events := λ _, None; put_secs := λ _, 0%Q;
     Producer.sleep_lag := λ _, 0%Q;
     Producer.uuid4 := λ k, pretty k; strftime := λ _, "1970-01-01T00:00:00.000Z" |}.

(** An event bus that fails every call. *)
Definition failing_bus : Env :=
  {| put_events := λ _, Some (OtherError "bus unavailable"); put_secs := λ _, 0%Q;
     Producer.sleep_lag := λ _, 0%Q;
     Producer.uuid4 := λ k, pretty k; strftime := λ _, "1970-01-01T00:00:00.000Z" |}.

(** 10 events per second for 2 seconds, without ramp-up. *)
Definition short_run : ProducerConfig.t :=
  ProducerConfig.mk 10 2 "placement.created" 0 "nedlia-events".

(** The defaults of [main]: 100 events per second for 300 seconds, with a
    ramp-up of 60 seconds. *)
Definition default_run : ProducerConfig.t :=
  ProducerConfig.mk 100 300 "placement.created" 60 "nedlia-events".

Definition boot : Producer.World :=
  {| Producer.now := 0; puts := 0; sleeps := 0; uuids := 0 |}.

End Examples.

(** ** The pytest functions of consistency_test.py *)

Module ConsistencyTests.
Import Consistency.

(** How a test function ends: it returns, an [assert] fails, or another
    exception escapes. The text of the assertion message is not modelled. *)
Inductive test_outcome :=
| TestPassed
| AssertionFailed
| TestError (e : exn).

(** [num_events] tasks, the i-th one talking to [api_of i]. *)
Definition clients (api_of : nat → ApiClient) (num_events : nat) : list ApiClient :=
  map api_of (seq 0 num_events).

(** What [test_placement_consistency_slo] does with the report: its
    entries are read in the order of the [print] lines, then the SLO is
    asserted. Writing the report file and the console output are not
    modelled. *)
Definition check_slo (results : gmap string value) : test_outcome :=
  match
    (_ ← getitem results "total_events";
     _ ← getitem results "consistent_count";
     _ ← getitem results "within_slo_count";
     _ ← getitem results "slo_percentage";
     getitem results "slo_percentage" ≫= as_number)
  with
  | Err e => TestError e
  | Ok slo_percentage =>
      if Qle_bool 95 slo_percentage then TestPassed else AssertionFailed
  end.

(** [test_placement_consistency_slo]: 50 probes, then the report is
    checked. *)
Definition test_placement_consistency_slo (slo_seconds : Q)
    (api_of : nat → ApiClient) : test_outcome :=
  match test_placement_consistency slo_seconds (clients api_of 50) with
  | Err e => TestError e
  | Ok results => check_slo results
  end.

(** [[r["write_latency_ms"] for r in tester.results if "write_latency_ms" in r]] *)
Definition write_latencies (results : list (gmap string value)) : result (list Q) :=
  traverse (λ r, getitem r "write_latency_ms" ≫= as_number)
           (filter (λ r, is_Some (r !! "write_latency_ms")) results).

(** What [test_write_latency] does after the batch, with [tester.results]:
    the batch's report is computed but not used, and the 99th percentile of
    the write latencies, when there are any, is asserted to be under
    500 ms. *)
Definition check_write_latency (tester_results : list (gmap string value))
    : test_outcome :=
  match _analyze_results tester_results with
  | Err e => TestError e
  | Ok _ =>
      match write_latencies tester_results with
      | Err e => TestError e
      | Ok [] => TestPassed
      | Ok write_latencies =>
          let n := Z.of_nat (length write_latencies) in
          match py_index (sorted write_latencies) (int_ (inject_Z n * (99 # 100))) with
          | Err e => TestError e
          | Ok p99_write =>
              if Qlt_bool p99_write 500 then TestPassed else AssertionFailed
          end
      end
  end.

(** [test_write_latency]: 20 probes with the default SLO of 5 seconds. *)
Definition test_write_latency (api_of : nat → ApiClient) : test_outcome :=
  check_write_latency (dicts_only (gather 5 (clients api_of 20))).

(** The write latency the probe of [api] reports, in milliseconds. *)
Definition write_latency_ms (api : ApiClient) : Q :=
  ((boot_time api + post_secs api - boot_time api) * 1000)%Q.

(** The write of a probe is accepted: the POST answers 201 with a body that
    carries an identifier. *)
Definition write_accepted (api : ApiClient) : bool :=
  match post api with
  | Ok response =>
      (status_code response =? 201) &&
      match json_data_id response with Ok _ => true | Err _ => false end
  | Err _ => false
  end.

(** The consistency check never succeeds on any read. *)
Definition never_populated (api : ApiClient) : Prop :=
  ∀ k, file_url_populated (get api k) = false.

End ConsistencyTests.

(** ** Further concrete inputs *)

Module Scenarios.
Import Consistency Producer Examples.

(** A read of a placement whose file has been generated. *)
Definition generated : Response :=
  {| status_code := 200;
     json := Ok (Some (<["id" := VStr "p1"]>
                      (<["file_url" := VStr "s3://placements/p1.json"]> ∅))) |}.

(** A system under test whose worker finishes between the second and the
    third read; the second read fails in transit. *)
Definition converging_api : ApiClient :=
  {| post := Ok accepted; post_secs := 1 # 100;
     get := λ k, if k <? 2 then Ok pending
                 else if k <? 3 then Err (OtherError "read timeout")
                 else Ok generated;
     get_secs := λ _, 1 # 250;
     Consistency.sleep_lag := λ _, 0%Q;
     Consistency.uuid4 := "c-4"; boot_time := 0 |}.

End Scenarios.

(** ** Notions used to state the properties *)

Module Notions.
Import Producer.

(** Two numbers stored in reports are the same number. *)
Definition same_value (v v' : value) : Prop :=
  match v, v' with
  | VNum q, VNum q' => (q == q')%Q
  | _, _ => v = v'
  end.

(** Two reports have the same entries. *)
Definition same_report (d d' : gmap string value) : Prop :=
  ∀ k, match d !! k, d' !! k with
       | Some v, Some v' => same_value v v'
       | None, None => True
       | _, _ => False
       end.


End Notions.

(** ** backpressure_test.py: [test_high_load_backpressure] *)

Module Backpressure.
Import ConsistencyTests.

(** What the POST of one request does: it is answered with a status code,
    or it raises an exception [e], of which [str(e)] is kept. *)
Inductive post_outcome :=
| Answered (status_code : Z)
| Failed (message : string).

(** The outside of one request: what its POST does, the clock reading when
    the request starts and how long the POST takes. *)
Record Attempt := {
  post : post_outcome;
  started : Q;
  post_secs : Q
}.

(** The dictionary [make_request] returns; its keys are fixed, ["error"]
    being present only when the POST raised. *)
Record Reply := {
  status : Z;
  latency_ms : Q;
  error : option string
}.

(** [make_request] of [test_high_load_backpressure] *)
Definition make_request (a : Attempt) : Reply :=
  let start := started a in
  match post a with
  | Answered status_code =>
      {| status := status_code;
         latency_ms := (start + post_secs a - start) * 1000;
         error := None |}
  | Failed message =>
      {| status := 0; latency_ms := 0; error := Some message |}
  end.

(** One pass of the loop that fills [status_codes]:
    [status_codes[code] = status_codes.get(code, 0) + 1]. *)
Definition tally_step (status_codes : gmap Z Z) (r : Reply) : gmap Z Z :=
  let code := status r in
  <[code := default 0 (status_codes !! code) + 1]> status_codes.

(** [status_codes] after the loop over [responses]. *)
Definition tally (responses : list Reply) : gmap Z Z :=
  foldl tally_step ∅ responses.

(** [sum(v for k, v in status_codes.items() if k >= 500)] *)
Definition server_errors (status_codes : gmap Z Z) : Z :=
  map_fold (λ k v acc, if 500 <=? k then acc + v else acc) 0 status_codes.

Definition successful (status_codes : gmap Z Z) : Z :=
  default 0 (status_codes !! 201) + default 0 (status_codes !! 200).

Definition rate_limited (status_codes : gmap Z Z) : Z :=
  default 0 (status_codes !! 429).

(** [test_high_load_backpressure]: 100 requests, the i-th one meeting
    [attempts i]. Console output is not modelled. *)
Definition test_high_load_backpressure (attempts : nat → Attempt) : test_outcome :=
  let responses := map make_request (map attempts (seq 0 100)) in
  let status_codes := tally responses in
  let errors := server_errors status_codes in
  if errors <? 10 then TestPassed else AssertionFailed.

(** How many of the replies have a status that satisfies [p]. *)
Definition count_status (p : Z → bool) (responses : list Reply) : Z :=
  Z.of_nat (length (filter (λ r, p (status r) = true) responses)).

(** The POST was answered with a status of 500 or more. *)
Definition answered_5xx (a : Attempt) : bool :=
  match post a with
  | Answered status_code => 500 <=? status_code
  | Failed _ => false
  end.

End Backpressure.

(** * Properties *)

(** ** Facts about the Python primitives *)

Lemma Qlt_bool_true x y : Qlt_bool x y = true ↔ (x < y)%Q.
Proof.
  unfold Qlt_bool. rewrite negb_true_iff, <- not_true_iff_false, Qle_bool_iff.
  split; [apply Qnot_le_lt|apply Qlt_not_le].
Qed.

Lemma Qlt_bool_false x y : Qlt_bool x y = false ↔ (y <= x)%Q.
Proof. unfold Qlt_bool. rewrite negb_false_iff. apply Qle_bool_iff. Qed.

Lemma Qle_bool_false x y : Qle_bool x y = false ↔ (y < x)%Q.
Proof.
  rewrite <- not_true_iff_false, Qle_bool_iff.
  split; [apply Qnot_le_lt|apply Qlt_not_le].
Qed.

Lemma max2_ub_l a b : (a <= max2 a b)%Q.
Proof.
  unfold max2. destruct (Qlt_bool a b) eqn:E; [|apply Qle_refl].
  apply Qlt_bool_true in E. by apply Qlt_le_weak.
Qed.

Lemma max2_ub_r a b : (b <= max2 a b)%Q.
Proof.
  unfold max2. destruct (Qlt_bool a b) eqn:E; [apply Qle_refl|].
  by apply Qlt_bool_false in E.
Qed.

Lemma min2_lb_l a b : (min2 a b <= a)%Q.
Proof.
  unfold min2. destruct (Qlt_bool b a) eqn:E; [|apply Qle_refl].
  apply Qlt_bool_true in E. by apply Qlt_le_weak.
Qed.

Lemma min2_lb_r a b : (min2 a b <= b)%Q.
Proof.
  unfold min2. destruct (Qlt_bool b a) eqn:E; [apply Qle_refl|].
  by apply Qlt_bool_false in E.
Qed.

Lemma foldl_max2_ub l : ∀ a y, (y = a ∨ y ∈ l) → (y <= foldl max2 a l)%Q.
Proof.
  induction l as [|x l IH]; intros a y Hy; simpl.
  - destruct Hy as [->|Hy]; [apply Qle_refl|by apply elem_of_nil in Hy].
  - destruct Hy as [->|Hy].
    + eapply Qle_trans; [apply (max2_ub_l _ x)|]. apply IH. by left.
    + apply elem_of_cons in Hy as [->|Hy].
      * eapply Qle_trans; [apply (max2_ub_r a)|]. apply IH. by left.
      * apply IH. by right.
Qed.

Lemma foldl_min2_lb l : ∀ a y, (y = a ∨ y ∈ l) → (foldl min2 a l <= y)%Q.
Proof.
  induction l as [|x l IH]; intros a y Hy; simpl.
  - destruct Hy as [->|Hy]; [apply Qle_refl|by apply elem_of_nil in Hy].
  - destruct Hy as [->|Hy].
    + eapply Qle_trans; [|apply (min2_lb_l _ x)]. apply IH. by left.
    + apply elem_of_cons in Hy as [->|Hy].
      * eapply Qle_trans; [|apply (min2_lb_r a)]. apply IH. by left.
      * apply IH. by right.
Qed.

Lemma insert_sorted_perm x l : insert_sorted x l ≡ₚ x :: l.
Proof.
  induction l as [|y l IH]; simpl; [done|].
  destruct (Qle_bool x y); [done|]. rewrite IH. apply Permutation_swap.
Qed.

Lemma sorted_perm l : sorted l ≡ₚ l.
Proof.
  induction l as [|x l IH]; simpl; [done|].
  unfold sorted in *. simpl. rewrite insert_sorted_perm. by rewrite IH.
Qed.

Lemma insert_sorted_sorted x l :
  StronglySorted Qle l → StronglySorted Qle (insert_sorted x l).
Proof.
  induction 1 as [|y l Hl IH Hy]; simpl.
  - repeat constructor.
  - destruct (Qle_bool x y) eqn:E.
    + apply Qle_bool_iff in E. constructor; [by constructor|].
      constructor; [done|]. eapply Forall_impl; [exact Hy|].
      intros z Hz. by eapply Qle_trans.
    + apply Qle_bool_false in E. constructor; [done|].
      rewrite insert_sorted_perm. constructor; [by apply Qlt_le_weak|done].
Qed.

Lemma sorted_sorted l : StronglySorted Qle (sorted l).
Proof.
  induction l as [|x l IH]; [constructor|].
  unfold sorted in *. simpl. by apply insert_sorted_sorted.
Qed.

Lemma sorted_length l : length (sorted l) = length l.
Proof. by rewrite sorted_perm. Qed.

Lemma StronglySorted_lookup_le (l : list Q) : StronglySorted Qle l →
  ∀ (i j : nat) (a b : Q), (i <= j)%nat → l !! i = Some a → l !! j = Some b → (a <= b)%Q.
Proof.
  induction 1 as [|x l Hl IH Hx]; intros i j a b Hij Ha Hb; [done|].
  destruct i as [|i], j as [|j]; simpl in *; try lia.
  - injection Ha as <-. injection Hb as <-. apply Qle_refl.
  - injection Ha as <-. rewrite Forall_forall in Hx. apply Hx.
    by eapply list_elem_of_lookup_2.
  - eapply IH; [|done..]. lia.
Qed.

Lemma py_index_nonneg {A} (l : list A) (i : Z) :
  0 <= i < Z.of_nat (length l) →
  ∃ x, py_index l i = Ok x ∧ l !! Z.to_nat i = Some x.
Proof.
  intros Hi. unfold py_index.
  destruct (i <? 0) eqn:E; [apply Z.ltb_lt in E; lia|].
  destruct (0 <=? i) eqn:E1; [|apply Z.leb_gt in E1; lia].
  destruct (i <? Z.of_nat (length l)) eqn:E2; [|apply Z.ltb_ge in E2; lia].
  simpl. destruct (lookup_lt_is_Some_2 l (Z.to_nat i)) as [x Hx]; [lia|].
  exists x. by rewrite Hx.
Qed.

Lemma py_index_last {A} (l : list A) :
  l ≠ [] →
  ∃ x, py_index l (-1) = Ok x ∧ l !! (length l - 1)%nat = Some x.
Proof.
  intros Hl. assert (0 < length l)%nat by (destruct l; [done|simpl; lia]).
  unfold py_index. simpl.
  destruct (0 <=? -1 + Z.of_nat (length l)) eqn:E1; [|apply Z.leb_gt in E1; lia].
  destruct (-1 + Z.of_nat (length l) <? Z.of_nat (length l)) eqn:E2;
    [|apply Z.ltb_ge in E2; lia].
  simpl. replace (Z.to_nat (-1 + Z.of_nat (length l))) with (length l - 1)%nat by lia.
  destruct (lookup_lt_is_Some_2 l (length l - 1)%nat) as [x Hx]; [lia|].
  exists x. by rewrite Hx.
Qed.

Lemma int_scale (n : Z) (a : Z) (b : positive) :
  0 <= n → 0 <= a → int_ (inject_Z n * (a # b)) = n * a / Zpos b.
Proof.
  intros Hn Ha. unfold int_. simpl. rewrite Z.quot_div_nonneg; [done|lia|lia].
Qed.

Lemma truediv_ok a b : ¬ (b == 0)%Q → truediv a b = Ok (a / b)%Q.
Proof.
  intros Hb. unfold truediv. destruct (Qeq_bool b 0) eqn:E; [|done].
  by apply Qeq_bool_iff in E.
Qed.

Lemma inject_Z_nonzero z : z ≠ 0 → ¬ (inject_Z z == 0)%Q.
Proof. unfold Qeq. simpl. lia. Qed.

Lemma max2_mono c a b : (a <= b)%Q → (max2 c a <= max2 c b)%Q.
Proof.
  intros Hab. unfold max2.
  destruct (Qlt_bool c a) eqn:Ea, (Qlt_bool c b) eqn:Eb;
    try apply Qlt_bool_true in Ea; try apply Qlt_bool_true in Eb;
    try apply Qlt_bool_false in Ea; try apply Qlt_bool_false in Eb; lra.
Qed.

Lemma max2_lub c a u : (c <= u)%Q → (a <= u)%Q → (max2 c a <= u)%Q.
Proof. intros. unfold max2. by destruct (Qlt_bool c a). Qed.

Lemma inject_Z_ge_1 z : 0 < z → (1 <= inject_Z z)%Q.
Proof. intros. change 1%Q with (inject_Z 1). rewrite <- Zle_Qle. lia. Qed.

Lemma inject_Z_pos z : 0 < z → (0 < inject_Z z)%Q.
Proof. intros. change 0%Q with (inject_Z 0). rewrite <- Zlt_Qlt. lia. Qed.

Lemma Qdiv_le_mono a b c : (0 < c)%Q → (a <= b)%Q → (a / c <= b / c)%Q.
Proof.
  intros Hc Hab. unfold Qdiv. apply Qmult_le_compat_r; [done|].
  apply Qlt_le_weak. by apply Qinv_lt_0_compat.
Qed.

Lemma Qdiv_self c : (0 < c)%Q → (c / c == 1)%Q.
Proof. intros. field. lra. Qed.

Lemma foldl_max2_in l : ∀ a, foldl max2 a l = a ∨ foldl max2 a l ∈ l.
Proof.
  induction l as [|x l IH]; intros a; simpl; [by left|].
  destruct (IH (max2 a x)) as [E|E].
  - rewrite E. unfold max2. destruct (Qlt_bool a x); [right; left|by left].
  - right. by right.
Qed.

Lemma foldl_min2_in l : ∀ a, foldl min2 a l = a ∨ foldl min2 a l ∈ l.
Proof.
  induction l as [|x l IH]; intros a; simpl; [by left|].
  destruct (IH (min2 a x)) as [E|E].
  - rewrite E. unfold min2. destruct (Qlt_bool x a); [right; left|by left].
  - right. by right.
Qed.

Lemma traverse_elem {A B} (f : A → result B) (l : list A) : ∀ ys y,
  traverse f l = Ok ys → y ∈ ys → ∃ x, x ∈ l ∧ f x = Ok y.
Proof.
  induction l as [|x l IH]; intros ys y; simpl.
  - intros [= <-] Hy. by apply elem_of_nil in Hy.
  - destruct (f x) as [b|e] eqn:Ef; [|done]. cbn [mbind result_bind].
    destruct (traverse f l) as [bs|e] eqn:Et; [|done]. cbn [mbind result_bind].
    intros [= <-] Hy. apply elem_of_cons in Hy as [->|Hy].
    + exists x. split; [left|done].
    + destruct (IH bs y eq_refl Hy) as (x' & Hx' & E). exists x'. split; [by right|done].
Qed.

Lemma traverse_total {A B} (f : A → result B) (l : list A) :
  Forall (λ x, ∃ y, f x = Ok y) l → ∃ ys, traverse f l = Ok ys.
Proof.
  induction 1 as [|x l [y Hy] _ [ys IH]]; simpl; [by eexists|].
  rewrite Hy, IH. by eexists.
Qed.


(** ** The consistency probe and its aggregation *)

Module ConsistencyProofs.
Import Consistency Examples.

(** Runs the probe up to the answer of the POST. *)
Ltac run_to_post :=
  unfold run_task, _single_consistency_test, api_post, time_time, log, tick, lift;
  unfold mbind, M_bind, mret, M_ret; simpl.

(** Splits [k ∈ latency_stat_keys] into its five cases. *)
Ltac each_stat_key Hk tac :=
  unfold latency_stat_keys in Hk;
  repeat (apply elem_of_cons in Hk as [->|Hk]; [tac|]);
  by apply elem_of_nil in Hk.

Lemma poll_step api k pid w :
  try_except (poll_once api k pid false) (mret false) w
  = (Returned (file_url_populated (get api k)),
     {| now := (now w + get_secs api k)%Q; trace := trace w ++ [EvGet pid] |}).
Proof.
  unfold try_except, poll_once, api_get, file_url_populated, log, tick, lift.
  unfold mbind, M_bind, mret, M_ret. simpl.
  destruct (get api k) as [placement|e]; simpl; [|reflexivity].
  destruct (status_code placement =? 200); simpl; [|reflexivity].
  destruct (json placement) as [body|e]; simpl; [|reflexivity].
  destruct (get_truthy (default ∅ body) "file_url"); reflexivity.
Qed.

Lemma polls_S pid n : polls pid (S n) = [EvSleep (1 # 10); EvGet pid] ++ polls pid n.
Proof. reflexivity. Qed.

Lemma poll_loop_spec api pid max_polls : ∀ fuel poll_count w,
  0 <= poll_count →
  (Z.to_nat (max_polls - poll_count) <= fuel)%nat →
  ∃ consistent poll_count' w',
    poll_loop fuel api pid max_polls false poll_count w
      = (Returned (consistent, poll_count'), w') ∧
    poll_count <= poll_count' <= Z.max poll_count max_polls ∧
    trace w' = trace w ++ polls pid (Z.to_nat (poll_count' - poll_count)) ∧
    (∀ k, poll_count < k < poll_count' → file_url_populated (get api k) = false) ∧
    (consistent = true →
       poll_count < poll_count' ∧ file_url_populated (get api poll_count') = true) ∧
    (consistent = false →
       poll_count' = Z.max poll_count max_polls ∧
       (poll_count < poll_count' → file_url_populated (get api poll_count') = false)).
Proof.
  induction fuel as [|fuel IH]; intros pc w Hpc Hfuel.
  - exists false, pc, w. simpl.
    destruct (pc <? max_polls) eqn:Hlt; [apply Z.ltb_lt in Hlt; lia|].
    apply Z.ltb_ge in Hlt.
    split; [reflexivity|]. split; [lia|].
    split; [rewrite Z.sub_diag; simpl; by rewrite app_nil_r|].
    split; [intros; lia|]. split; [done|]. intros _. split; lia.
  - simpl. destruct (pc <? max_polls) eqn:Hlt.
    + apply Z.ltb_lt in Hlt.
      unfold mbind at 1, M_bind at 1. unfold asyncio_sleep, log, tick.
      unfold mbind at 1, M_bind at 1. simpl.
      unfold mbind at 1, M_bind at 1. rewrite poll_step. simpl.
      destruct (file_url_populated (get api (pc + 1))) eqn:Hp.
      * destruct fuel; simpl.
        all: eexists true, (pc + 1), _; split; [reflexivity|]; simpl.
        all: split; [lia|]; split;
          [replace (pc + 1 - pc) with 1 by lia; by rewrite <- app_assoc|].
        all: split; [intros; lia|]; split; [intros _; split; [lia|done]|done].
      * match goal with |- context [poll_loop fuel _ _ _ _ _ ?w1] =>
          destruct (IH (pc + 1) w1) as (c & pc' & w' & Heq & Hrange & Htr & Hbefore & Ht & Hf)
        end; [lia|lia|].
        exists c, pc', w'. split; [exact Heq|].
        split; [lia|]. split.
        { rewrite Htr. simpl.
          replace (Z.to_nat (pc' - pc)) with (S (Z.to_nat (pc' - (pc + 1)))) by lia.
          rewrite polls_S. by rewrite <- !app_assoc. }
        split.
        { intros k Hk. destruct (decide (k = pc + 1)) as [->|]; [done|]. apply Hbefore. lia. }
        split.
        { intros Hc. destruct (Ht Hc). split; [lia|done]. }
        { intros Hc. destruct (Hf Hc) as [Hm Hl]. split; [lia|].
          intros _. destruct (decide (pc' = pc + 1)) as [->|]; [done|]. apply Hl. lia. }
    + apply Z.ltb_ge in Hlt.
      exists false, pc, w. split; [reflexivity|]. split; [lia|].
      split; [rewrite Z.sub_diag; simpl; by rewrite app_nil_r|].
      split; [intros; lia|]. split; [done|]. intros _. split; lia.
Qed.

Lemma run_task_write_ok slo api response pid :
  post api = Ok response →
  status_code response = 201 →
  json_data_id response = Ok pid →
  ∀ consistent poll_count w',
    poll_loop (Z.to_nat (int_ (slo * 10))) api pid (int_ (slo * 10)) false 0
      {| now := (boot_time api + post_secs api)%Q;
         trace := [EvPost (uuid4 api)] |}
    = (Returned (consistent, poll_count), w') →
    run_task slo api =
      (Returned
         (<["correlation_id" := VStr (uuid4 api)]>
         (<["placement_id" := pid]>
         (<["write_latency_ms" :=
              VNum ((boot_time api + post_secs api - boot_time api) * 1000)]>
         (<["consistency_latency_ms" := VNum ((now w' - boot_time api) * 1000)]>
         (<["consistent" := VBool consistent]>
         (<["within_slo" := VBool (Qle_bool (now w' - boot_time api) slo)]>
         (<["poll_count" := VInt poll_count]> ∅))))))), w').
Proof.
  intros Hpost Hstatus Hid c pc w' Hloop.
  run_to_post.
  rewrite Hpost. simpl. rewrite Hstatus. simpl. rewrite Hid. simpl.
  rewrite Hloop. reflexivity.
Qed.

Lemma run_task_write_failed slo api response :
  post api = Ok response →
  status_code response ≠ 201 →
  run_task slo api =
    (Returned
       (<["correlation_id" := VStr (uuid4 api)]>
       (<["error" := VStr ("Create failed: " +:+ pretty (status_code response))]>
       (<["consistent" := VBool false]>
       (<["within_slo" := VBool false]> ∅)))),
     {| now := (boot_time api + post_secs api)%Q;
        trace := [EvPost (uuid4 api)] |}).
Proof.
  intros Hpost Hstatus.
  run_to_post.
  rewrite Hpost. simpl.
  destruct (status_code response =? 201) eqn:E; [apply Z.eqb_eq in E; done|].
  reflexivity.
Qed.

(** A probe never runs out of fuel: it raises (the POST failed, or its
    body carries no identifier) or returns a well-formed dictionary. *)
Lemma run_task_cases slo api :
  (∃ e w, run_task slo api = (Raised e, w)) ∨
  (∃ d w, run_task slo api = (Returned d, w) ∧ probe_result d).
Proof.
  destruct (post api) as [response|e] eqn:Hpost.
  - destruct (decide (status_code response = 201)) as [Hs|Hs].
    + destruct (json_data_id response) as [pid|e] eqn:Hid.
      * destruct (poll_loop_spec api pid (int_ (slo * 10)) (Z.to_nat (int_ (slo * 10))) 0
              {| now := (boot_time api + post_secs api)%Q;
                 trace := [EvPost (uuid4 api)] |})
          as (c & pc & w' & Hloop & _); [lia|lia|].
        right. eexists _, _. split; [by eapply run_task_write_ok|].
        intros _. by eexists.
      * left. exists e. eexists.
        run_to_post.
        rewrite Hpost. simpl. rewrite Hs. simpl. rewrite Hid. reflexivity.
    + right. eexists _, _. split; [by eapply run_task_write_failed|].
      intros Hc. discriminate Hc.
  - left. exists e. eexists.
    run_to_post. rewrite Hpost. reflexivity.
Qed.

(** Claim C1, at a failing input. With an SLO of 0.55 s the probe polls
    [int(5.5) = 5] times; against a system that never becomes consistent it
    gives up after 530 ms and reports [consistent = False] together with
    [within_slo = True]: [within_slo] is computed from the elapsed time
    alone. *)
Theorem within_slo_ignores_consistency : ∃ d w latency,
  run_task (11 # 20) stalled_api = (Returned d, w) ∧
  d !! "consistent" = Some (VBool false) ∧
  d !! "within_slo" = Some (VBool true) ∧
  d !! "consistency_latency_ms" = Some (VNum latency) ∧
  (latency == 530)%Q ∧ (latency <= (11 # 20) * 1000)%Q.
Proof.
  eexists _, _, _. split.
  { apply (run_task_write_ok _ stalled_api accepted (VStr "p1")); [reflexivity..|].
    vm_compute. reflexivity. }
  split; [reflexivity|]. split; [reflexivity|]. split; [reflexivity|].
  split; [reflexivity|]. vm_compute. discriminate.
Qed.

(** Claim C2, as the code has it. When the POST answers with a status other
    than 201 the probe returns at once: the result has [consistent = False]
    and [within_slo = False], and neither a ["placement_id"] nor a
    ["poll_count"] entry; the only call made is the POST (no sleep, no
    read). *)
Theorem write_failure_result slo api response :
  post api = Ok response →
  status_code response ≠ 201 →
  ∃ d w,
    run_task slo api = (Returned d, w) ∧
    d !! "consistent" = Some (VBool false) ∧
    d !! "within_slo" = Some (VBool false) ∧
    d !! "placement_id" = None ∧
    d !! "poll_count" = None ∧
    trace w = [EvPost (uuid4 api)].
Proof.
  intros Hpost Hstatus. eexists _, _.
  split; [by apply run_task_write_failed|].
  repeat split; reflexivity.
Qed.

Lemma write_failure_result_witness :
  post rejecting_api = Ok rejected ∧ status_code rejected ≠ 201 ∧
  ∃ d w,
    run_task 5 rejecting_api = (Returned d, w) ∧
    d !! "consistent" = Some (VBool false) ∧
    d !! "within_slo" = Some (VBool false) ∧
    d !! "placement_id" = None ∧
    d !! "poll_count" = None ∧
    trace w = [EvPost (uuid4 rejecting_api)].
Proof.
  split; [reflexivity|]. split; [discriminate|].
  apply (write_failure_result 5 rejecting_api rejected); [reflexivity|discriminate].
Defined.

(** Claim C2 as stated fails: the result of a refused write has no
    ["poll_count"] entry at all, so it is not 0. *)
Lemma write_failure_has_no_poll_count : ∃ d w,
  run_task 5 rejecting_api = (Returned d, w) ∧
  d !! "poll_count" = None ∧
  d !! "poll_count" ≠ Some (VInt 0).
Proof.
  eexists _, _.
  split; [apply (run_task_write_failed 5 rejecting_api rejected); [reflexivity|discriminate]|].
  split; [reflexivity|discriminate].
Qed.

(** Claim C3, as the code has it. After an accepted write the probe polls,
    each read preceded by a sleep of 100 ms, until a read shows [file_url]
    populated or [poll_count] reaches [int(slo * 10)] (truncation, and no
    poll at all when that is not positive); it reports a non-consistent
    result only with [poll_count] at that bound and every read having
    failed the check. *)
Theorem polling_bound slo api response pid :
  post api = Ok response →
  status_code response = 201 →
  json_data_id response = Ok pid →
  ∃ d w consistent poll_count,
    run_task slo api = (Returned d, w) ∧
    d !! "consistent" = Some (VBool consistent) ∧
    d !! "poll_count" = Some (VInt poll_count) ∧
    0 <= poll_count <= Z.max 0 (int_ (slo * 10)) ∧
    trace w = EvPost (uuid4 api) :: polls pid (Z.to_nat poll_count) ∧
    (∀ k, 1 <= k < poll_count → file_url_populated (get api k) = false) ∧
    (consistent = true →
       1 <= poll_count ∧ file_url_populated (get api poll_count) = true) ∧
    (consistent = false →
       poll_count = Z.max 0 (int_ (slo * 10)) ∧
       ∀ k, 1 <= k <= poll_count → file_url_populated (get api k) = false).
Proof.
  intros Hpost Hstatus Hid.
  destruct (poll_loop_spec api pid (int_ (slo * 10)) (Z.to_nat (int_ (slo * 10))) 0
              {| now := (boot_time api + post_secs api)%Q;
                 trace := [EvPost (uuid4 api)] |})
    as (c & pc & w' & Hloop & Hrange & Htr & Hbefore & Ht & Hf); [lia|lia|].
  eexists _, w', c, pc.
  split; [by eapply run_task_write_ok|].
  split; [reflexivity|]. split; [reflexivity|]. split; [lia|].
  split; [rewrite Htr, Z.sub_0_r; reflexivity|].
  split; [intros k Hk; apply Hbefore; lia|].
  split; [intros Hc; destruct (Ht Hc); split; [lia|done]|].
  intros Hc. destruct (Hf Hc) as [Hm Hl]. split; [done|].
  intros k Hk. destruct (decide (k = pc)) as [->|]; [apply Hl; lia|apply Hbefore; lia].
Qed.

Lemma polling_bound_witness :
  post stalled_api = Ok accepted ∧ status_code accepted = 201 ∧
  json_data_id accepted = Ok (VStr "p1") ∧
  ∃ d w consistent poll_count,
    run_task 5 stalled_api = (Returned d, w) ∧
    d !! "consistent" = Some (VBool consistent) ∧
    d !! "poll_count" = Some (VInt poll_count) ∧
    0 <= poll_count <= Z.max 0 (int_ (5 * 10)) ∧
    trace w = EvPost (uuid4 stalled_api) :: polls (VStr "p1") (Z.to_nat poll_count) ∧
    (∀ k, 1 <= k < poll_count → file_url_populated (get stalled_api k) = false) ∧
    (consistent = true →
       1 <= poll_count ∧ file_url_populated (get stalled_api poll_count) = true) ∧
    (consistent = false →
       poll_count = Z.max 0 (int_ (5 * 10)) ∧
       ∀ k, 1 <= k <= poll_count → file_url_populated (get stalled_api k) = false).
Proof.
  split; [reflexivity|]. split; [reflexivity|]. split; [reflexivity|].
  apply (polling_bound 5 stalled_api accepted (VStr "p1")); reflexivity.
Defined.

(** Claim C3 as stated fails: with an SLO of 0.55 s, [ceil(slo * 10)] is 6,
    but the probe reports the time-out after 5 polls. *)
Lemma polling_bound_is_not_ceiling : ∃ d w,
  run_task (11 # 20) stalled_api = (Returned d, w) ∧
  d !! "consistent" = Some (VBool false) ∧
  d !! "poll_count" = Some (VInt 5) ∧
  Qceiling ((11 # 20) * 10) = 6.
Proof.
  eexists _, _. split.
  { apply (run_task_write_ok _ stalled_api accepted (VStr "p1")); [reflexivity..|].
    vm_compute. reflexivity. }
  split; [reflexivity|]. split; [reflexivity|]. reflexivity.
Qed.

(** The three nearest-rank lookups on a non-empty sample list are in range
    and ordered. *)
Lemma nearest_rank (latencies : list Q) :
  latencies ≠ [] →
  let s := sorted latencies in
  let n := Z.of_nat (length s) in
  ∃ p50 p90 p99,
    py_index s (n / 2) = Ok p50 ∧
    py_index s (int_ (inject_Z n * (9 # 10))) = Ok p90 ∧
    (if 100 <? n then py_index s (int_ (inject_Z n * (99 # 100)))
     else py_index s (-1)) = Ok p99 ∧
    p50 ∈ latencies ∧ p99 ∈ latencies ∧
    (p50 <= p90)%Q ∧ (p90 <= p99)%Q.
Proof.
  intros Hne s n.
  assert (Hn : 0 < n).
  { subst n s. rewrite sorted_length. destruct latencies; [done|simpl; lia]. }
  assert (Hs : s ≠ []) by (intros E; subst n; rewrite E in Hn; simpl in Hn; lia).
  rewrite !int_scale by lia.
  destruct (py_index_nonneg s (n / 2)) as (p50 & E50 & L50).
  { split; [apply Z.div_pos; lia|apply Z.div_lt_upper_bound; lia]. }
  destruct (py_index_nonneg s (n * 9 / 10)) as (p90 & E90 & L90).
  { split; [apply Z.div_pos; lia|apply Z.div_lt_upper_bound; lia]. }
  assert (H59 : n / 2 <= n * 9 / 10).
  { apply Z.div_le_lower_bound; [lia|].
    pose proof (Z.mul_div_le n 2). pose proof (Z.mod_pos_bound n 2).
    pose proof (Z.div_mod n 2). lia. }
  assert (Hin : ∀ i x, s !! i = Some x → x ∈ latencies).
  { intros i x Hx. rewrite <- (sorted_perm latencies).
    by eapply list_elem_of_lookup_2. }
  assert (Hle : ∀ i j a b, (i <= j)%nat → s !! i = Some a → s !! j = Some b → (a <= b)%Q)
    by apply StronglySorted_lookup_le, sorted_sorted.
  destruct (100 <? n) eqn:E100.
  - apply Z.ltb_lt in E100.
    destruct (py_index_nonneg s (n * 99 / 100)) as (p99 & E99 & L99).
    { split; [apply Z.div_pos; lia|apply Z.div_lt_upper_bound; lia]. }
    exists p50, p90, p99. repeat split; eauto.
    + eapply Hle; [|exact L50|exact L90]. lia.
    + eapply Hle; [|exact L90|exact L99].
      apply Z2Nat.inj_le; [apply Z.div_pos; lia|apply Z.div_pos; lia|].
      apply Z.div_le_lower_bound; [lia|].
      pose proof (Z.mul_div_le (n * 9) 10). lia.
  - apply Z.ltb_ge in E100.
    destruct (py_index_last s Hs) as (p99 & E99 & L99).
    exists p50, p90, p99. repeat split; eauto.
    + eapply Hle; [|exact L50|exact L90]. lia.
    + eapply Hle; [|exact L90|exact L99].
      assert (n * 9 / 10 < n) by (apply Z.div_lt_upper_bound; lia).
      subst n. lia.
Qed.

Lemma consistent_latencies_elem results lat q :
  consistent_latencies results = Ok lat → q ∈ lat →
  ∃ r, r ∈ results ∧ get_truthy r "consistent" = true ∧ latency_of r = Ok q.
Proof.
  intros Hlat Hq. destruct (traverse_elem _ _ _ _ Hlat Hq) as (r & Hr & E).
  apply list_elem_of_filter in Hr as [Hc Hr]. by exists r.
Qed.

Lemma consistent_latencies_none results :
  Forall (λ r, get_truthy r "consistent" = false) results →
  consistent_latencies results = Ok [].
Proof.
  intros H. unfold consistent_latencies.
  replace (filter (λ r, get_truthy r "consistent" = true) results) with (@nil (gmap string value)); [done|].
  symmetry. induction H as [|r rs Hr _ IH]; [done|].
  rewrite filter_cons_False; [done|]. by rewrite Hr.
Qed.

Lemma consistent_latencies_total results :
  Forall probe_result results → ∃ lat, consistent_latencies results = Ok lat.
Proof.
  intros H. apply traverse_total.
  apply Forall_forall. intros r Hr. apply list_elem_of_filter in Hr as [Hc Hr].
  rewrite Forall_forall in H. destruct (H r Hr Hc) as [q Hq].
  exists q. unfold latency_of, getitem. by rewrite Hq.
Qed.

(** The dictionary of statistics, once the sample list is known to be
    non-empty. *)
Lemma analyze_results_stats results x l :
  consistent_latencies results = Ok (x :: l) →
  ∃ ratio p50 p90 p99,
    p50 ∈ x :: l ∧ p90 ∈ x :: l ∧ p99 ∈ x :: l ∧
    _analyze_results results = Ok
      (<["total_events" := VInt (Z.of_nat (length results))]>
      (<["consistent_count" :=
           VInt (count_if (λ r, get_truthy r "consistent") results)]>
      (<["within_slo_count" :=
           VInt (count_if (λ r, get_truthy r "within_slo") results)]>
      (<["slo_percentage" := VNum (ratio * 100)]>
      (<["p50_latency_ms" := VNum p50]>
      (<["p90_latency_ms" := VNum p90]>
      (<["p99_latency_ms" := VNum p99]>
      (<["max_latency_ms" := VNum (foldl max2 x l)]>
      (<["min_latency_ms" := VNum (foldl min2 x l)]> ∅))))))))).
Proof.
  intros Hlat.
  destruct (nearest_rank (x :: l)) as (p50 & p90 & p99 & E50 & E90 & E99 & I50 & I99 & _);
    [done|].
  assert (I90 : p90 ∈ x :: l).
  { rewrite <- (sorted_perm (x :: l)). unfold py_index in E90.
    repeat match type of E90 with
           | (if ?c then _ else _) = _ => destruct c; [|done]
           | match ?o with _ => _ end = _ => destruct o eqn:El; [|done]
           end.
    injection E90 as ->. by eapply list_elem_of_lookup_2. }
  destruct results as [|r rs]; [done|].
  unfold _analyze_results. rewrite Hlat.
  cbn [mbind result_bind].
  rewrite truediv_ok by (apply inject_Z_nonzero; simpl; lia).
  cbn [mbind result_bind]. rewrite E50. cbn [mbind result_bind].
  rewrite E90. cbn [mbind result_bind]. rewrite E99. cbn [mbind result_bind].
  cbn [py_max py_min]. by eexists _, p50, p90, p99.
Qed.

(** Claim C5. Whenever at least one sample is consistent, the three
    nearest-rank lookups into the sorted latencies are in range (none
    raises [IndexError]), the report is returned, and the reported values
    satisfy [min <= p50 <= p90 <= p99 <= max]. *)
Theorem percentiles_ordered (results : list (gmap string value)) (x : Q) (l : list Q) :
  consistent_latencies results = Ok (x :: l) →
  let s := sorted (x :: l) in
  let n := Z.of_nat (length s) in
  ∃ d mn p50 p90 p99 mx,
    _analyze_results results = Ok d ∧
    py_index s (n / 2) = Ok p50 ∧
    py_index s (int_ (inject_Z n * (9 # 10))) = Ok p90 ∧
    (if 100 <? n then py_index s (int_ (inject_Z n * (99 # 100)))
     else py_index s (-1)) = Ok p99 ∧
    d !! "min_latency_ms" = Some (VNum mn) ∧
    d !! "p50_latency_ms" = Some (VNum p50) ∧
    d !! "p90_latency_ms" = Some (VNum p90) ∧
    d !! "p99_latency_ms" = Some (VNum p99) ∧
    d !! "max_latency_ms" = Some (VNum mx) ∧
    (mn <= p50)%Q ∧ (p50 <= p90)%Q ∧ (p90 <= p99)%Q ∧ (p99 <= mx)%Q.
Proof.
  intros Hlat s n.
  destruct (nearest_rank (x :: l))
    as (p50 & p90 & p99 & E50 & E90 & E99 & I50 & I99 & H1 & H2); [done|].
  fold s in E50, E90, E99. fold n in E50, E90, E99.
  destruct results as [|r rs]; [done|].
  unfold _analyze_results. rewrite Hlat.
  cbn [mbind result_bind]. fold s. fold n.
  rewrite truediv_ok by (apply inject_Z_nonzero; simpl; lia).
  cbn [mbind result_bind]. rewrite E50. cbn [mbind result_bind].
  rewrite E90. cbn [mbind result_bind]. rewrite E99. cbn [mbind result_bind].
  cbn [py_max py_min].
  eexists _, _, p50, p90, p99, _. split; [reflexivity|].
  do 3 (split; [done|]). do 5 (split; [reflexivity|]).
  split; [apply foldl_min2_lb; apply elem_of_cons in I50; tauto|].
  split; [done|]. split; [done|].
  apply foldl_max2_ub; apply elem_of_cons in I99; tauto.
Qed.

Lemma percentiles_ordered_witness :
  let results := [consistent_after 120; never_consistent; consistent_after 80;
                  consistent_after 95] in
  consistent_latencies results = Ok [120; 80; 95]%Q ∧
  ∃ d mn p50 p90 p99 mx,
    _analyze_results results = Ok d ∧
    py_index (sorted [120; 80; 95]%Q) (3 / 2) = Ok p50 ∧
    py_index (sorted [120; 80; 95]%Q) (int_ (inject_Z 3 * (9 # 10))) = Ok p90 ∧
    py_index (sorted [120; 80; 95]%Q) (-1) = Ok p99 ∧
    d !! "min_latency_ms" = Some (VNum mn) ∧
    d !! "p50_latency_ms" = Some (VNum p50) ∧
    d !! "p90_latency_ms" = Some (VNum p90) ∧
    d !! "p99_latency_ms" = Some (VNum p99) ∧
    d !! "max_latency_ms" = Some (VNum mx) ∧
    (mn <= p50)%Q ∧ (p50 <= p90)%Q ∧ (p90 <= p99)%Q ∧ (p99 <= mx)%Q.
Proof.
  split; [reflexivity|].
  apply (percentiles_ordered
           [consistent_after 120; never_consistent; consistent_after 80;
            consistent_after 95] 120%Q [80; 95]%Q).
  reflexivity.
Defined.

(** Claim C6. Over an empty result list, or one in which no sample is
    consistent, the aggregation returns (it does not raise) a dictionary
    with an ["error"] entry and without any latency statistic; and every
    latency statistic it ever reports is the latency of a sample of the
    list whose ["consistent"] entry is true. *)
Theorem no_data_and_consistent_samples_only (results : list (gmap string value)) :
  (Forall (λ r, get_truthy r "consistent" = false) results →
   ∃ d, _analyze_results results = Ok d ∧
        is_Some (d !! "error") ∧
        ∀ k, k ∈ latency_stat_keys → d !! k = None) ∧
  (∀ d k v, _analyze_results results = Ok d →
     k ∈ latency_stat_keys → d !! k = Some v →
     ∃ r q, r ∈ results ∧ get_truthy r "consistent" = true ∧
            latency_of r = Ok q ∧ v = VNum q).
Proof.
  split.
  - intros Hnone. destruct results as [|r rs].
    + eexists. split; [reflexivity|]. split; [by eexists|].
      intros k Hk. each_stat_key Hk ltac:(idtac; reflexivity).
    + unfold _analyze_results. rewrite (consistent_latencies_none _ Hnone).
      cbn [mbind result_bind]. eexists. split; [reflexivity|].
      split; [by eexists|].
      intros k Hk. each_stat_key Hk ltac:(idtac; reflexivity).
  - intros d k v Hd Hk Hv.
    destruct (consistent_latencies results) as [[|x l]|e] eqn:Hlat.
    + exfalso. destruct results as [|r rs].
      * injection Hd as <-. each_stat_key Hk ltac:(idtac; discriminate Hv).
      * unfold _analyze_results in Hd. rewrite Hlat in Hd.
        cbn [mbind result_bind] in Hd. injection Hd as <-.
        each_stat_key Hk ltac:(idtac; discriminate Hv).
    + destruct (analyze_results_stats _ _ _ Hlat)
        as (ratio & p50 & p90 & p99 & I50 & I90 & I99 & E).
      rewrite E in Hd. injection Hd as <-.
      assert (Imax : foldl max2 x l ∈ x :: l)
        by (destruct (foldl_max2_in l x) as [->|?]; [left|by right]).
      assert (Imin : foldl min2 x l ∈ x :: l)
        by (destruct (foldl_min2_in l x) as [->|?]; [left|by right]).
      assert (∃ q, v = VNum q ∧ q ∈ x :: l) as (q & -> & Hq).
      { each_stat_key Hk ltac:(idtac; injection Hv as <-; eauto). }
      destruct (consistent_latencies_elem _ _ _ Hlat Hq) as (r & Hr & Hc & El).
      by exists r, q.
    + exfalso. destruct results as [|r rs]; [done|].
      unfold _analyze_results in Hd. by rewrite Hlat in Hd.
Qed.

Lemma no_data_and_consistent_samples_only_witness :
  Forall (λ r, get_truthy r "consistent" = false) [never_consistent] ∧
  (∃ d, _analyze_results [never_consistent] = Ok d ∧
        is_Some (d !! "error") ∧
        ∀ k, k ∈ latency_stat_keys → d !! k = None) ∧
  (∃ r q, r ∈ [never_consistent; consistent_after 80] ∧
          get_truthy r "consistent" = true ∧
          latency_of r = Ok q ∧ VNum 80 = VNum q).
Proof.
  assert (H : Forall (λ r, get_truthy r "consistent" = false) [never_consistent])
    by (repeat constructor).
  split; [exact H|]. split.
  - exact (proj1 (no_data_and_consistent_samples_only [never_consistent]) H).
  - destruct (analyze_results_stats [never_consistent; consistent_after 80] 80 [])
      as (ratio & p50 & p90 & p99 & _ & _ & _ & E); [reflexivity|].
    apply (proj2 (no_data_and_consistent_samples_only
                    [never_consistent; consistent_after 80])
             _ "max_latency_ms" (VNum 80) E);
      [unfold latency_stat_keys; do 3 right; left|reflexivity].
Defined.

Lemma gather_probe_results slo apis :
  Forall probe_result (dicts_only (gather slo apis)).
Proof.
  induction apis as [|api apis IH]; simpl; [constructor|].
  destruct (run_task_cases slo api) as [(e & w & E)|(d & w & E & Hd)];
    rewrite E; simpl; [done|by constructor].
Qed.

Lemma analyze_results_total results :
  Forall probe_result results → ∃ d, _analyze_results results = Ok d.
Proof.
  intros H. destruct results as [|r rs]; [by eexists|].
  destruct (consistent_latencies_total _ H) as [[|x l] Hlat].
  - unfold _analyze_results. rewrite Hlat. by eexists.
  - destruct (analyze_results_stats _ _ _ Hlat) as (? & ? & ? & ? & _ & _ & _ & E).
    by eexists.
Qed.

Lemma dicts_only_app {A} (l1 l2 : list (outcome A)) :
  dicts_only (l1 ++ l2) = dicts_only l1 ++ dicts_only l2.
Proof.
  induction l1 as [|[a|e|] l1 IH]; simpl; [done|by rewrite IH|done|done].
Qed.

Lemma dicts_only_gather slo apis :
  dicts_only (gather slo apis) = omap (task_result slo) apis.
Proof.
  induction apis as [|api apis IH]; [done|].
  simpl. unfold task_result at 1.
  destruct (run_task slo api) as [[d|e|] w]; simpl; by rewrite IH.
Qed.

(** Claim C9. If one task of the batch raises, the batch still returns its
    report. The results collected are exactly the dictionaries returned by
    the other tasks, in the order of the tasks: the raising task
    contributes nothing and no returned dictionary is lost. The report is
    [_analyze_results] of these, which is also the report of the batch
    without the raising task. *)
Theorem batch_excludes_raising_probe slo apis1 api apis2 e w :
  run_task slo api = (Raised e, w) →
  let collected := dicts_only (gather slo (apis1 ++ api :: apis2)) in
  collected = omap (task_result slo) (apis1 ++ apis2) ∧
  (∀ api' d w', api' ∈ apis1 ++ apis2 →
     run_task slo api' = (Returned d, w') → d ∈ collected) ∧
  (∀ d, d ∈ collected →
     ∃ api' w', api' ∈ apis1 ++ apis2 ∧ run_task slo api' = (Returned d, w')) ∧
  ∃ report,
    test_placement_consistency slo (apis1 ++ api :: apis2) = Ok report ∧
    _analyze_results (omap (task_result slo) (apis1 ++ apis2)) = Ok report ∧
    test_placement_consistency slo (apis1 ++ apis2) = Ok report.
Proof.
  intros Hraise collected.
  assert (E : collected = omap (task_result slo) (apis1 ++ apis2)).
  { subst collected. rewrite dicts_only_gather, !omap_app. simpl.
    unfold task_result at 2. by rewrite Hraise. }
  split; [exact E|]. split; [|split].
  - intros api' d w' Hin Hrun. rewrite E. apply list_elem_of_omap.
    exists api'. split; [done|]. unfold task_result. by rewrite Hrun.
  - intros d Hd. rewrite E in Hd. apply list_elem_of_omap in Hd as (api' & Hin & Hres).
    unfold task_result in Hres.
    destruct (run_task slo api') as [[d'|e'|] w'] eqn:Hrun; [|done..].
    injection Hres as ->. by exists api', w'.
  - destruct (analyze_results_total collected) as [report Hreport];
      [apply gather_probe_results|].
    exists report. split; [exact Hreport|]. split; [by rewrite <- E|].
    unfold test_placement_consistency. by rewrite dicts_only_gather, <- E.
Qed.

Lemma batch_excludes_raising_probe_witness :
  run_task 5 unreachable_api
    = (Raised (OtherError "connection refused"),
       {| now := (0 + (1 # 100))%Q; trace := [EvPost "c-3"] |}) ∧
  let collected :=
    dicts_only (gather 5 ([stalled_api] ++ unreachable_api :: [rejecting_api])) in
  collected = omap (task_result 5) ([stalled_api] ++ [rejecting_api]) ∧
  (∀ api' d w', api' ∈ [stalled_api] ++ [rejecting_api] →
     run_task 5 api' = (Returned d, w') → d ∈ collected) ∧
  (∀ d, d ∈ collected →
     ∃ api' w', api' ∈ [stalled_api] ++ [rejecting_api] ∧
                run_task 5 api' = (Returned d, w')) ∧
  ∃ report,
    test_placement_consistency 5 ([stalled_api] ++ unreachable_api :: [rejecting_api])
      = Ok report ∧
    _analyze_results (omap (task_result 5) ([stalled_api] ++ [rejecting_api]))
      = Ok report ∧
    test_placement_consistency 5 ([stalled_api] ++ [rejecting_api]) = Ok report.
Proof.
  split; [reflexivity|].
  apply (batch_excludes_raising_probe 5 [stalled_api] unreachable_api [rejecting_api]
           (OtherError "connection refused")
           {| now := (0 + (1 # 100))%Q; trace := [EvPost "c-3"] |}).
  reflexivity.
Defined.

End ConsistencyProofs.

(** ** The event producer *)

Module ProducerProofs.
Import Producer Examples.

Section Rate.
Variable config : ProducerConfig.t.
Abbreviation R := (inject_Z (ProducerConfig.events_per_second config)).
Abbreviation ramp := (inject_Z (ProducerConfig.ramp_up_seconds config)).
Hypothesis R_pos : 0 < ProducerConfig.events_per_second config.

Lemma current_rate_ramping elapsed :
  (elapsed < ramp)%Q → (0 <= elapsed)%Q ∨ (0 < ramp)%Q →
  current_rate config elapsed = Ok (max2 1 (R * (elapsed / ramp))).
Proof.
  intros Hlt Hpos. unfold current_rate.
  apply Qlt_bool_true in Hlt as Hb. rewrite Hb.
  rewrite truediv_ok; [done|]. intros E. lra.
Qed.

Lemma current_rate_steady elapsed :
  (ramp <= elapsed)%Q → current_rate config elapsed = Ok R.
Proof.
  intros Hle. unfold current_rate.
  apply Qlt_bool_false in Hle. by rewrite Hle.
Qed.

Lemma current_rate_ok elapsed :
  (0 <= elapsed)%Q ∨ (0 < ramp)%Q →
  ∃ r, current_rate config elapsed = Ok r ∧ (1 <= r)%Q.
Proof.
  intros Hpos. destruct (Qlt_le_dec elapsed ramp) as [Hlt|Hle].
  - eexists. split; [by apply current_rate_ramping|]. apply max2_ub_l.
  - exists R. split; [by apply current_rate_steady|]. by apply inject_Z_ge_1.
Qed.

Lemma interval_ok elapsed :
  (0 <= elapsed)%Q ∨ (0 < ramp)%Q →
  ∃ r, current_rate config elapsed = Ok r ∧ (1 <= r)%Q ∧
       interval config elapsed = Ok (1 / r)%Q ∧ (0 < 1 / r)%Q ∧ (1 / r <= 1)%Q.
Proof.
  intros Hpos. destruct (current_rate_ok elapsed Hpos) as (r & Hr & H1).
  exists r. split; [done|]. split; [done|].
  unfold interval. rewrite Hr. cbn [mbind result_bind].
  split; [apply truediv_ok; intros E; lra|].
  assert (0 < / r)%Q by (apply Qinv_lt_0_compat; lra).
  split; [unfold Qdiv; lra|].
  apply Qle_shift_div_r; lra.
Qed.

Lemma current_rate_mono e1 e2 r1 r2 :
  (0 < ramp)%Q → (e1 <= e2)%Q →
  current_rate config e1 = Ok r1 → current_rate config e2 = Ok r2 →
  (r1 <= r2)%Q.
Proof.
  intros Hramp He.
  assert (HR : (1 <= R)%Q) by by apply inject_Z_ge_1.
  destruct (Qlt_le_dec e1 ramp) as [H1|H1], (Qlt_le_dec e2 ramp) as [H2|H2].
  - rewrite !current_rate_ramping by auto. intros [= <-] [= <-].
    apply max2_mono. apply Qmult_le_l; [lra|]. by apply Qdiv_le_mono.
  - rewrite current_rate_ramping, current_rate_steady by auto. intros [= <-] [= <-].
    apply max2_lub; [done|].
    rewrite <- (Qmult_1_r R) at 2. apply Qmult_le_l; [lra|].
    apply Qle_shift_div_r; lra.
  - lra.
  - rewrite !current_rate_steady by auto. intros [= <-] [= <-]. lra.
Qed.

Lemma ramp_formula_at_end :
  (0 < ramp)%Q → (max2 1 (R * (ramp / ramp)) == R)%Q.
Proof.
  intros Hramp. assert (HR : (1 <= R)%Q) by by apply inject_Z_ge_1.
  unfold max2. destruct (Qlt_bool 1 (R * (ramp / ramp))) eqn:E.
  - rewrite Qdiv_self by done. lra.
  - apply Qlt_bool_false in E. rewrite Qdiv_self in E by done. lra.
Qed.

End Rate.

(** Claim C8. For a positive target rate [R] and a positive ramp-up time,
    the rate used before the end of the ramp-up is [max(1, R * (elapsed /
    ramp_up_seconds))]; the rate is non-decreasing in [elapsed]; it is never
    below 1, so the delay [1 / rate] is defined and positive; and at
    [elapsed = ramp_up_seconds] the rate is [R], which is also the value of
    the ramp formula there. *)
Theorem ramp_rate_monotone_floored (config : ProducerConfig.t) :
  0 < ProducerConfig.events_per_second config →
  0 < ProducerConfig.ramp_up_seconds config →
  let R := inject_Z (ProducerConfig.events_per_second config) in
  let ramp := inject_Z (ProducerConfig.ramp_up_seconds config) in
  (∀ elapsed, (elapsed < ramp)%Q →
     current_rate config elapsed = Ok (max2 1 (R * (elapsed / ramp)))) ∧
  (∀ e1 e2 r1 r2, (e1 <= e2)%Q →
     current_rate config e1 = Ok r1 → current_rate config e2 = Ok r2 →
     (r1 <= r2)%Q) ∧
  (∀ elapsed, ∃ r,
     current_rate config elapsed = Ok r ∧ (1 <= r)%Q ∧
     interval config elapsed = Ok (1 / r)%Q ∧ (0 < 1 / r)%Q) ∧
  current_rate config ramp = Ok R ∧
  (max2 1 (R * (ramp / ramp)) == R)%Q.
Proof.
  intros HR Hramp R ramp.
  assert (Hramp' : (0 < ramp)%Q) by by apply inject_Z_pos.
  split; [intros; apply current_rate_ramping; auto|].
  split; [intros; by eapply current_rate_mono|].
  split.
  { intros e. destruct (interval_ok config HR e) as (r & ? & ? & ? & ? & _); [by right|].
    by exists r. }
  split; [apply current_rate_steady; apply Qle_refl|].
  by apply ramp_formula_at_end.
Qed.

Lemma ramp_rate_monotone_floored_witness :
  0 < ProducerConfig.events_per_second default_run ∧
  0 < ProducerConfig.ramp_up_seconds default_run ∧
  (∀ elapsed, (elapsed < 60)%Q →
     current_rate default_run elapsed = Ok (max2 1 (100 * (elapsed / 60)))) ∧
  (∀ e1 e2 r1 r2, (e1 <= e2)%Q →
     current_rate default_run e1 = Ok r1 → current_rate default_run e2 = Ok r2 →
     (r1 <= r2)%Q) ∧
  (∀ elapsed, ∃ r,
     current_rate default_run elapsed = Ok r ∧ (1 <= r)%Q ∧
     interval default_run elapsed = Ok (1 / r)%Q ∧ (0 < 1 / r)%Q) ∧
  current_rate default_run 60 = Ok 100%Q ∧
  (max2 1 (100 * (60 / 60)) == 100)%Q.
Proof.
  split; [reflexivity|]. split; [reflexivity|].
  apply (ramp_rate_monotone_floored default_run); reflexivity.
Defined.

Lemma successes_none env : (∀ k, put_events env k ≠ None) →
  ∀ n k, successes env k n = 0%nat.
Proof.
  intros H. induction n as [|n IH]; intros k; simpl; [done|].
  rewrite IH. destruct (put_events env k) eqn:E; [done|]. by destruct (H k).
Qed.

Lemma successes_all env : (∀ k, put_events env k = None) →
  ∀ n k, successes env k n = n.
Proof.
  intros H. induction n as [|n IH]; intros k; simpl; [done|].
  by rewrite IH, H.
Qed.

Section Run.
Variable env : Env.
Variable cfg : ProducerConfig.t.
Hypothesis rate_pos : 0 < ProducerConfig.events_per_second cfg.
Hypothesis put_secs_nonneg : ∀ k, (0 <= put_secs env k)%Q.
Hypothesis sleep_lag_nonneg : ∀ k, (0 <= sleep_lag env k)%Q.

Lemma run_iteration_spec start_time events_sent s :
  config (self s) = cfg →
  (start_time <= now (world s))%Q →
  ∃ s',
    run_iteration env start_time events_sent s = (Returned (events_sent + 1), s') ∧
    config (self s') = cfg ∧
    test_run_id (self s') = test_run_id (self s) ∧
    puts (world s') = S (puts (world s)) ∧
    (length (produced_events (self s'))
       = length (produced_events (self s)) + successes env (puts (world s)) 1)%nat ∧
    errors (self s') + Z.of_nat (successes env (puts (world s)) 1)
       = errors (self s) + 1 ∧
    (now (world s) < now (world s'))%Q.
Proof.
  destruct s as [[c id evs errs] [t np ns nu]]; simpl.
  intros -> Hstart.
  destruct (interval_ok cfg rate_pos (t - start_time)) as (r & _ & _ & Hi & Hd & _);
    [left; lra|].
  unfold run_iteration, time_time, get_self, lift.
  unfold mbind at 1, M_bind at 1. simpl.
  unfold mbind at 1, M_bind at 1. simpl.
  unfold mbind at 1, M_bind at 1. simpl. rewrite Hi. simpl.
  unfold _create_event, str_uuid4, time_time, get_self, _publish_event,
    append_event, incr_errors, asyncio_sleep, set_world, tick, lift, py_mod.
  unfold mbind, M_bind, mret, M_ret. simpl.
  destruct (ProducerConfig.events_per_second cfg * 10 =? 0) eqn:E;
    [apply Z.eqb_eq in E; lia|].
  pose proof (put_secs_nonneg np). pose proof (sleep_lag_nonneg ns).
  pose proof (Q.le_max_r 0 (1 / r)).
  destruct (put_events env np); simpl; eexists; (split; [reflexivity|]); simpl;
    repeat split; try rewrite length_app; simpl; try lia; lra.
Qed.

Lemma run_loop_spec start_time total_events : ∀ fuel events_sent s,
  config (self s) = cfg →
  (start_time <= now (world s))%Q →
  (Z.to_nat (total_events - events_sent) <= fuel)%nat →
  let n := Z.to_nat (total_events - events_sent) in
  ∃ s',
    run_loop fuel env start_time total_events events_sent s = (Returned tt, s') ∧
    config (self s') = cfg ∧
    test_run_id (self s') = test_run_id (self s) ∧
    puts (world s') = (puts (world s) + n)%nat ∧
    (length (produced_events (self s'))
       = length (produced_events (self s)) + successes env (puts (world s)) n)%nat ∧
    errors (self s') + Z.of_nat (successes env (puts (world s)) n)
       = errors (self s) + Z.of_nat n ∧
    (now (world s) <= now (world s'))%Q ∧
    ((0 < n)%nat → (now (world s) < now (world s'))%Q).
Proof.
  induction fuel as [|fuel IH]; intros sent s Hcfg Hstart Hfuel n; subst n.
  - simpl. destruct (sent <? total_events) eqn:E; [apply Z.ltb_lt in E; lia|].
    apply Z.ltb_ge in E. replace (Z.to_nat (total_events - sent)) with 0%nat by lia.
    exists s. simpl. repeat split; try done; try lia; apply Qle_refl.
  - simpl. destruct (sent <? total_events) eqn:E.
    + apply Z.ltb_lt in E.
      destruct (run_iteration_spec start_time sent s Hcfg Hstart)
        as (s1 & Hstep & Hc1 & Hid1 & Hp1 & Hl1 & He1 & Ht1).
      unfold mbind, M_bind. rewrite Hstep.
      destruct (IH (sent + 1) s1 Hc1) as (s' & Hrun & Hc & Hid & Hp & Hl & He & Ht & _);
        [lra|lia|].
      exists s'. split; [exact Hrun|].
      replace (Z.to_nat (total_events - sent))
        with (S (Z.to_nat (total_events - (sent + 1)))) by lia.
      simpl in Hl1, He1. simpl.
      rewrite Hp1 in Hl, He, Hp.
      repeat split; try congruence; try lia; lra.
    + apply Z.ltb_ge in E. replace (Z.to_nat (total_events - sent)) with 0%nat by lia.
      exists s. simpl. repeat split; try done; try lia; apply Qle_refl.
Qed.

(** [run] on a producer in any state: it returns, after exactly
    [events_per_second * duration_seconds] calls to the bus. *)
Lemma run_spec s :
  config (self s) = cfg →
  0 < ProducerConfig.duration_seconds cfg →
  let total := ProducerConfig.events_per_second cfg
               * ProducerConfig.duration_seconds cfg in
  let ok := successes env (puts (world s)) (Z.to_nat total) in
  ∃ report s',
    run env s = (Returned report, s') ∧
    config (self s') = cfg ∧
    puts (world s') = (puts (world s) + Z.to_nat total)%nat ∧
    ProducerReport.total_events report
      = Z.of_nat (length (produced_events (self s'))) ∧
    ProducerReport.errors report = errors (self s') ∧
    ProducerReport.target_rate report = ProducerConfig.events_per_second cfg ∧
    (length (produced_events (self s'))
       = length (produced_events (self s)) + ok)%nat ∧
    errors (self s') + Z.of_nat ok = errors (self s) + total.
Proof.
  intros Hcfg Hdur total ok.
  assert (Htotal : 0 < total) by (subst total; lia).
  destruct (run_loop_spec (now (world s)) total (Z.to_nat total) 0 s Hcfg)
    as (s' & Hrun & Hc & Hid & Hp & Hl & He & _ & Ht); [apply Qle_refl|lia|].
  rewrite Z.sub_0_r in *. specialize (Ht ltac:(lia)).
  unfold run, get_self, time_time, lift.
  unfold mbind at 1, M_bind at 1. simpl. rewrite Hcfg. fold total.
  unfold mbind at 1, M_bind at 1. simpl.
  unfold mbind at 1, M_bind at 1. rewrite Hrun.
  unfold mbind, M_bind, mret, M_ret. simpl.
  rewrite truediv_ok by (intros E; lra). simpl.
  eexists _, s'. split; [reflexivity|]. simpl.
  rewrite Hc. repeat split; try done. fold ok in He. lia.
Qed.

End Run.


(** Claim C4, as the code has it. Against a bus that fails every call, a
    fresh producer with a positive rate and duration returns its report
    after exactly [events_per_second * duration_seconds] calls to the bus;
    the report has [errors] equal to that number and [total_events], the
    number of events published, equal to 0. *)
Theorem failing_sink_report env cfg w :
  0 < ProducerConfig.events_per_second cfg →
  0 < ProducerConfig.duration_seconds cfg →
  (∀ k, (0 <= put_secs env k)%Q) →
  (∀ k, (0 <= sleep_lag env k)%Q) →
  (∀ k, put_events env k ≠ None) →
  let total := ProducerConfig.events_per_second cfg
               * ProducerConfig.duration_seconds cfg in
  ∃ report s',
    run env (__init__ cfg w) = (Returned report, s') ∧
    puts (world s') = (puts w + Z.to_nat total)%nat ∧
    ProducerReport.errors report = total ∧
    ProducerReport.total_events report = 0.
Proof.
  intros Hrate Hdur Hput Hlag Hfail total.
  destruct (run_spec env cfg Hrate Hput Hlag (__init__ cfg w) eq_refl Hdur)
    as (report & s' & Hrun & _ & Hp & Ht & He & _ & Hl & Herr).
  rewrite successes_none in Hl, Herr by done. simpl in Hl, Herr, Hp.
  exists report, s'. split; [done|]. split; [done|].
  fold total in Herr. split; lia.
Qed.

Lemma failing_sink_report_witness :
  (∀ k, put_events failing_bus k ≠ None) ∧
  ∃ report s',
    run failing_bus (__init__ short_run boot) = (Returned report, s') ∧
    puts (world s') = (puts boot + Z.to_nat (10 * 2))%nat ∧
    ProducerReport.errors report = 10 * 2 ∧
    ProducerReport.total_events report = 0.
Proof.
  split; [discriminate|].
  apply (failing_sink_report failing_bus short_run boot);
    [reflexivity|reflexivity|discriminate|discriminate|discriminate].
Defined.

(** Claim C4 as stated fails: against the failing bus the report of a run
    of 20 events has [errors = 20] and [total_events = 0]. *)
Lemma failing_sink_errors_differ_from_total : ∃ report s',
  run failing_bus (__init__ short_run boot) = (Returned report, s') ∧
  ProducerReport.errors report = 20 ∧
  ProducerReport.total_events report = 0 ∧
  ProducerReport.errors report ≠ ProducerReport.total_events report.
Proof.
  eexists _, _. split; [vm_compute; reflexivity|].
  split; [reflexivity|]. split; [reflexivity|]. discriminate.
Qed.

(** Claim C7. Whatever the bus does and however long its calls and the
    sleeps take, a run with a positive rate and duration returns after
    exactly [events_per_second * duration_seconds] calls to the bus; and
    with 10 events per second for 2 seconds, no ramp-up and a bus that
    accepts everything, the report has [total_events = 20] and
    [errors = 0]. *)
Theorem run_count_based env w :
  (∀ k, (0 <= put_secs env k)%Q) →
  (∀ k, (0 <= sleep_lag env k)%Q) →
  (∀ cfg,
     0 < ProducerConfig.events_per_second cfg →
     0 < ProducerConfig.duration_seconds cfg →
     ∃ report s',
       run env (__init__ cfg w) = (Returned report, s') ∧
       puts (world s')
         = (puts w + Z.to_nat (ProducerConfig.events_per_second cfg
                               * ProducerConfig.duration_seconds cfg))%nat) ∧
  ((∀ k, put_events env k = None) →
   ∀ event_type event_bus_name,
     ∃ report s',
       run env (__init__ (ProducerConfig.mk 10 2 event_type 0 event_bus_name) w)
         = (Returned report, s') ∧
       puts (world s') = (puts w + 20)%nat ∧
       ProducerReport.total_events report = 20 ∧
       ProducerReport.errors report = 0).
Proof.
  intros Hput Hlag. split.
  - intros cfg Hrate Hdur.
    destruct (run_spec env cfg Hrate Hput Hlag (__init__ cfg w) eq_refl Hdur)
      as (report & s' & Hrun & _ & Hp & _).
    by exists report, s'.
  - intros Hok event_type event_bus_name.
    set (cfg := ProducerConfig.mk 10 2 event_type 0 event_bus_name).
    destruct (run_spec env cfg eq_refl Hput Hlag (__init__ cfg w) eq_refl eq_refl)
      as (report & s' & Hrun & _ & Hp & Ht & He & _ & Hl & Herr).
    rewrite successes_all in Hl, Herr by done. simpl in Hl, Herr, Hp.
    exists report, s'. split; [done|]. split; [exact Hp|]. split; lia.
Qed.

Lemma run_count_based_witness :
  (∀ k, put_events healthy_bus k = None) ∧
  ∃ report s',
    run healthy_bus (__init__ short_run boot) = (Returned report, s') ∧
    puts (world s') = (puts boot + 20)%nat ∧
    ProducerReport.total_events report = 20 ∧
    ProducerReport.errors report = 0.
Proof.
  split; [reflexivity|].
  apply (proj2 (run_count_based healthy_bus boot
                  ltac:(discriminate) ltac:(discriminate)));
    reflexivity.
Defined.

(** Claim C10. The report of the first run of a fresh producer with a
    positive rate and duration satisfies [total_events + errors =
    events_per_second * duration_seconds]; a second run of the same object
    adds to the same list and counter, so its report gives twice that
    number. *)
Theorem run_accounting env cfg w :
  0 < ProducerConfig.events_per_second cfg →
  0 < ProducerConfig.duration_seconds cfg →
  (∀ k, (0 <= put_secs env k)%Q) →
  (∀ k, (0 <= sleep_lag env k)%Q) →
  let total := ProducerConfig.events_per_second cfg
               * ProducerConfig.duration_seconds cfg in
  ∃ report1 s1 report2 s2,
    run env (__init__ cfg w) = (Returned report1, s1) ∧
    ProducerReport.total_events report1 + ProducerReport.errors report1 = total ∧
    run env s1 = (Returned report2, s2) ∧
    ProducerReport.total_events report2 + ProducerReport.errors report2
      = 2 * total.
Proof.
  intros Hrate Hdur Hput Hlag total.
  destruct (run_spec env cfg Hrate Hput Hlag (__init__ cfg w) eq_refl Hdur)
    as (r1 & s1 & Hrun1 & Hc1 & _ & Ht1 & He1 & _ & Hl1 & Herr1).
  destruct (run_spec env cfg Hrate Hput Hlag s1 Hc1 Hdur)
    as (r2 & s2 & Hrun2 & _ & _ & Ht2 & He2 & _ & Hl2 & Herr2).
  simpl in Hl1, Herr1. subst total.
  exists r1, s1, r2, s2. repeat split; try done; lia.
Qed.

Lemma run_accounting_witness :
  0 < ProducerConfig.events_per_second short_run ∧
  0 < ProducerConfig.duration_seconds short_run ∧
  ∃ report1 s1 report2 s2,
    run failing_bus (__init__ short_run boot) = (Returned report1, s1) ∧
    ProducerReport.total_events report1 + ProducerReport.errors report1 = 10 * 2 ∧
    run failing_bus s1 = (Returned report2, s2) ∧
    ProducerReport.total_events report2 + ProducerReport.errors report2
      = 2 * (10 * 2).
Proof.
  split; [reflexivity|]. split; [reflexivity|].
  apply (run_accounting failing_bus short_run boot);
    [reflexivity|reflexivity|discriminate|discriminate].
Defined.

End ProducerProofs.

(** ** Further properties of the probe *)
Module ProbeExtras.
Import Consistency Examples Scenarios ConsistencyProofs.

Section Clock.
Variable api : ApiClient.
Hypothesis get_secs_nonneg : ∀ k, (0 <= get_secs api k)%Q.
Hypothesis sleep_lag_nonneg : ∀ k, (0 <= sleep_lag api k)%Q.


End Clock.




(** When the POST raises, or is accepted with a body that carries no
    identifier, the probe raises that exception and has made no other call. *)
Theorem probe_raises_without_polling slo api e :
  post api = Err e ∨
  (∃ response, post api = Ok response ∧ status_code response = 201 ∧
               json_data_id response = Err e) →
  ∃ w, run_task slo api = (Raised e, w) ∧ trace w = [EvPost (uuid4 api)].
Proof.
  intros [Hpost|(response & Hpost & Hstatus & Hid)]; eexists.
  - split; [run_to_post; rewrite Hpost; reflexivity|reflexivity].
  - split; [run_to_post; rewrite Hpost; simpl; rewrite Hstatus; simpl;
            rewrite Hid; reflexivity|reflexivity].
Qed.

Lemma probe_raises_without_polling_witness :
  ∃ w, run_task 5 unreachable_api = (Raised (OtherError "connection refused"), w) ∧
       trace w = [EvPost (uuid4 unreachable_api)].
Proof.
  apply (probe_raises_without_polling 5 unreachable_api). left. reflexivity.
Defined.

(** The probe stops at the first read that shows [file_url]: if that is the
    k-th read, within the bound, the result is consistent with
    [poll_count = k], whatever the earlier reads answered or raised. *)
Theorem first_populated_read slo api response pid k :
  post api = Ok response →
  status_code response = 201 →
  json_data_id response = Ok pid →
  1 <= k <= int_ (slo * 10) →
  file_url_populated (get api k) = true →
  (∀ j, 1 <= j < k → file_url_populated (get api j) = false) →
  ∃ d w,
    run_task slo api = (Returned d, w) ∧
    d !! "consistent" = Some (VBool true) ∧
    d !! "poll_count" = Some (VInt k) ∧
    trace w = EvPost (uuid4 api) :: polls pid (Z.to_nat k).
Proof.
  intros Hpost Hstatus Hid Hk Hhit Hmiss.
  destruct (poll_loop_spec api pid (int_ (slo * 10)) (Z.to_nat (int_ (slo * 10))) 0
              {| now := (boot_time api + post_secs api)%Q;
                 trace := [EvPost (uuid4 api)] |})
    as (c & pc & w' & Hloop & Hrange & Htr & Hbefore & Ht & Hf); [lia|lia|].
  assert (c = true ∧ pc = k) as [-> ->].
  { destruct c.
    - destruct (Ht eq_refl) as [Hpos Hpc]. split; [done|].
      destruct (Z.lt_trichotomy pc k) as [Hlt|[->|Hgt]]; [|done|].
      + rewrite Hmiss in Hpc by lia. discriminate.
      + rewrite Hbefore in Hhit by lia. discriminate.
    - destruct (Hf eq_refl) as [Hpc Hlast]. exfalso.
      destruct (decide (k = pc)) as [->|Hne].
      + rewrite Hlast in Hhit by lia. discriminate.
      + rewrite Hbefore in Hhit by lia. discriminate. }
  eexists _, w'. split; [by eapply run_task_write_ok|].
  split; [reflexivity|]. split; [reflexivity|].
  rewrite Htr, Z.sub_0_r. reflexivity.
Qed.

Lemma first_populated_read_witness :
  ∃ d w,
    run_task 5 converging_api = (Returned d, w) ∧
    d !! "consistent" = Some (VBool true) ∧
    d !! "poll_count" = Some (VInt 3) ∧
    trace w = EvPost (uuid4 converging_api) :: polls (VStr "p1") (Z.to_nat 3).
Proof.
  apply (first_populated_read 5 converging_api accepted (VStr "p1") 3);
    [reflexivity|reflexivity|reflexivity| |reflexivity|].
  - split; [lia|vm_compute; discriminate].
  - intros j Hj. assert (j = 1 ∨ j = 2) as [-> | ->] by lia; reflexivity.
Defined.



End ProbeExtras.

(** ** Further properties of the report *)
Module ReportExtras.
Import Consistency Examples Scenarios Notions ConsistencyProofs.

Lemma traverse_length {A B} (f : A → result B) (l : list A) : ∀ ys,
  traverse f l = Ok ys → length ys = length l.
Proof.
  induction l as [|x l IH]; intros ys; simpl; [by intros [= <-]|].
  destruct (f x) as [b|e]; [|done]. cbn [mbind result_bind].
  destruct (traverse f l) as [bs|e]; [|done]. cbn [mbind result_bind].
  intros [= <-]. simpl. by rewrite (IH bs).
Qed.


Lemma count_if_bounds {A} (p : A → bool) (l : list A) :
  0 <= count_if p l <= Z.of_nat (length l).
Proof. unfold count_if. pose proof (length_filter (λ r, p r = true) l). lia. Qed.

(** The report over a list with at least one consistent sample, in full. *)
Lemma analyze_results_report results x l :
  consistent_latencies results = Ok (x :: l) →
  let s := sorted (x :: l) in
  let n := Z.of_nat (length s) in
  let total := Z.of_nat (length results) in
  let within := count_if (λ r, get_truthy r "within_slo") results in
  ∃ p50 p90 p99,
    py_index s (n / 2) = Ok p50 ∧
    py_index s (int_ (inject_Z n * (9 # 10))) = Ok p90 ∧
    (if 100 <? n then py_index s (int_ (inject_Z n * (99 # 100)))
     else py_index s (-1)) = Ok p99 ∧
    _analyze_results results = Ok
      (<["total_events" := VInt total]>
      (<["consistent_count" :=
           VInt (count_if (λ r, get_truthy r "consistent") results)]>
      (<["within_slo_count" := VInt within]>
      (<["slo_percentage" := VNum (inject_Z within / inject_Z total * 100)]>
      (<["p50_latency_ms" := VNum p50]>
      (<["p90_latency_ms" := VNum p90]>
      (<["p99_latency_ms" := VNum p99]>
      (<["max_latency_ms" := VNum (foldl max2 x l)]>
      (<["min_latency_ms" := VNum (foldl min2 x l)]> ∅))))))))).
Proof.
  intros Hlat s n total within.
  destruct (nearest_rank (x :: l)) as (p50 & p90 & p99 & E50 & E90 & E99 & _);
    [done|].
  fold s in E50, E90, E99. fold n in E50, E90, E99.
  exists p50, p90, p99. do 3 (split; [done|]).
  destruct results as [|r rs]; [done|].
  unfold _analyze_results. rewrite Hlat.
  cbn [mbind result_bind]. fold s. fold n.
  rewrite truediv_ok by (apply inject_Z_nonzero; simpl; lia).
  cbn [mbind result_bind]. rewrite E50. cbn [mbind result_bind].
  rewrite E90. cbn [mbind result_bind]. rewrite E99. cbn [mbind result_bind].
  reflexivity.
Qed.

(** The counts of the report: [total_events] is the number of results,
    [consistent_count] the number of samples the percentiles are taken
    from, [within_slo_count] lies between 0 and the total, and
    [slo_percentage] is [100 * within_slo_count / total_events], between 0
    and 100. *)
Theorem report_counts results x l :
  consistent_latencies results = Ok (x :: l) →
  ∃ d within slo_percentage,
    _analyze_results results = Ok d ∧
    d !! "total_events" = Some (VInt (Z.of_nat (length results))) ∧
    d !! "consistent_count" = Some (VInt (Z.of_nat (length (x :: l)))) ∧
    d !! "within_slo_count" = Some (VInt within) ∧
    d !! "slo_percentage" = Some (VNum slo_percentage) ∧
    Z.of_nat (length (x :: l)) <= Z.of_nat (length results) ∧
    0 <= within <= Z.of_nat (length results) ∧
    (slo_percentage * inject_Z (Z.of_nat (length results))
       == 100 * inject_Z within)%Q ∧
    (0 <= slo_percentage <= 100)%Q.
Proof.
  intros Hlat.
  destruct (analyze_results_report _ _ _ Hlat) as (p50 & p90 & p99 & _ & _ & _ & E).
  assert (Hcc : count_if (λ r, get_truthy r "consistent") results
                = Z.of_nat (length (x :: l))).
  { unfold count_if. f_equal. symmetry. exact (traverse_length _ _ _ Hlat). }
  assert (Hpos : 0 < Z.of_nat (length results)).
  { pose proof (count_if_bounds (λ r, get_truthy r "consistent") results).
    rewrite Hcc in *. simpl in *. lia. }
  pose proof (count_if_bounds (λ r, get_truthy r "within_slo") results) as Hw.
  set (within := count_if (λ r, get_truthy r "within_slo") results) in *.
  set (total := Z.of_nat (length results)) in *.
  assert (HT : (0 < inject_Z total)%Q) by by apply inject_Z_pos.
  assert (HW0 : (0 <= inject_Z within)%Q) by (change 0%Q with (inject_Z 0); rewrite <- Zle_Qle; lia).
  assert (HW1 : (inject_Z within <= inject_Z total)%Q) by (rewrite <- Zle_Qle; lia).
  eexists _, within, _. split; [exact E|].
  split; [reflexivity|]. split; [rewrite <- Hcc; reflexivity|].
  split; [reflexivity|]. split; [reflexivity|].
  split. { pose proof (count_if_bounds (λ r, get_truthy r "consistent") results). lia. }
  split; [done|].
  split; [field; lra|].
  split.
  - apply Qmult_le_0_compat; [|lra]. apply Qle_shift_div_l; lra.
  - assert (inject_Z within / inject_Z total <= 1)%Q by (apply Qle_shift_div_r; lra).
    lra.
Qed.

Lemma report_counts_witness :
  ∃ d within slo_percentage,
    let results := [consistent_after 120; never_consistent; consistent_after 80] in
    _analyze_results results = Ok d ∧
    d !! "total_events" = Some (VInt (Z.of_nat (length results))) ∧
    d !! "consistent_count" = Some (VInt (Z.of_nat (length [120; 80]%Q))) ∧
    d !! "within_slo_count" = Some (VInt within) ∧
    d !! "slo_percentage" = Some (VNum slo_percentage) ∧
    Z.of_nat (length [120; 80]%Q) <= Z.of_nat (length results) ∧
    0 <= within <= Z.of_nat (length results) ∧
    (slo_percentage * inject_Z (Z.of_nat (length results))
       == 100 * inject_Z within)%Q ∧
    (0 <= slo_percentage <= 100)%Q.
Proof.
  apply (report_counts [consistent_after 120; never_consistent; consistent_after 80]
           120%Q [80%Q]).
  reflexivity.
Defined.

(** With at most 100 consistent samples the reported p99 is the reported
    maximum. *)
Theorem p99_is_max_up_to_100_samples results x l :
  consistent_latencies results = Ok (x :: l) →
  (length (x :: l) <= 100)%nat →
  ∃ d p99 mx,
    _analyze_results results = Ok d ∧
    d !! "p99_latency_ms" = Some (VNum p99) ∧
    d !! "max_latency_ms" = Some (VNum mx) ∧
    (p99 == mx)%Q.
Proof.
  intros Hlat Hn.
  destruct (analyze_results_report _ _ _ Hlat) as (p50 & p90 & p99 & _ & _ & E99 & E).
  rewrite sorted_length in E99.
  destruct (100 <? Z.of_nat (length (x :: l))) eqn:E100; [apply Z.ltb_lt in E100; lia|].
  destruct (py_index_last (sorted (x :: l))) as (p & Ep & Lp).
  { intros Hnil. apply (f_equal length) in Hnil. rewrite sorted_length in Hnil. done. }
  rewrite Ep in E99. injection E99 as ->.
  eexists _, p99, _. split; [exact E|]. split; [reflexivity|]. split; [reflexivity|].
  apply Qle_antisym.
  - apply foldl_max2_ub.
    assert (Hin : p99 ∈ x :: l)
      by (rewrite <- (sorted_perm (x :: l)); by eapply list_elem_of_lookup_2).
    apply elem_of_cons in Hin. tauto.
  - assert (Hin : foldl max2 x l ∈ sorted (x :: l)).
    { rewrite sorted_perm. destruct (foldl_max2_in l x) as [->|?]; [left|by right]. }
    apply list_elem_of_lookup_1 in Hin as [i Hi].
    eapply (StronglySorted_lookup_le _ (sorted_sorted (x :: l))); [|exact Hi|exact Lp].
    apply lookup_lt_Some in Hi. lia.
Qed.

Lemma p99_is_max_up_to_100_samples_witness :
  ∃ d p99 mx,
    _analyze_results [consistent_after 120; never_consistent; consistent_after 80] = Ok d ∧
    d !! "p99_latency_ms" = Some (VNum p99) ∧
    d !! "max_latency_ms" = Some (VNum mx) ∧
    (p99 == mx)%Q.
Proof.
  apply (p99_is_max_up_to_100_samples
           [consistent_after 120; never_consistent; consistent_after 80] 120%Q [80%Q]);
    [reflexivity|simpl; lia].
Defined.



End ReportExtras.

Module OrderExtras.
Import Consistency Examples Scenarios Notions ConsistencyProofs ReportExtras.

Lemma Qle_bool_Qeq_r x y y' : (y == y')%Q → Qle_bool x y = Qle_bool x y'.
Proof.
  intros E. destruct (Qle_bool x y') eqn:E'.
  - apply Qle_bool_iff. apply Qle_bool_iff in E'. lra.
  - apply Qle_bool_false. apply Qle_bool_false in E'. lra.
Qed.

Lemma insert_sorted_Qeq x s s' :
  Forall2 Qeq s s' → Forall2 Qeq (insert_sorted x s) (insert_sorted x s').
Proof.
  induction 1 as [|y y' s s' Hy Hs IH]; simpl; [by repeat constructor|].
  rewrite (Qle_bool_Qeq_r x y y' Hy).
  destruct (Qle_bool x y'); repeat (constructor; try done).
Qed.

Lemma Forall2_Qeq_refl s : Forall2 Qeq s s.
Proof. induction s; constructor; [reflexivity|done]. Qed.

Lemma insert_sorted_swap x y s :
  Forall2 Qeq (insert_sorted x (insert_sorted y s))
              (insert_sorted y (insert_sorted x s)).
Proof.
  induction s as [|z s IH]; simpl.
  - destruct (Qle_bool x y) eqn:Exy, (Qle_bool y x) eqn:Eyx; simpl;
      rewrite ?Exy, ?Eyx;
      try apply Qle_bool_iff in Exy; try apply Qle_bool_iff in Eyx;
      try apply Qle_bool_false in Exy; try apply Qle_bool_false in Eyx;
      try lra; repeat (constructor; try reflexivity); lra.
  - destruct (Qle_bool y z) eqn:Eyz, (Qle_bool x z) eqn:Exz; simpl;
      destruct (Qle_bool x y) eqn:Exy, (Qle_bool y x) eqn:Eyx; simpl;
      rewrite ?Exy, ?Eyx, ?Eyz, ?Exz;
      try apply Qle_bool_iff in Exy; try apply Qle_bool_iff in Eyx;
      try apply Qle_bool_iff in Eyz; try apply Qle_bool_iff in Exz;
      try apply Qle_bool_false in Exy; try apply Qle_bool_false in Eyx;
      try apply Qle_bool_false in Eyz; try apply Qle_bool_false in Exz;
      try lra;
      repeat (constructor; try reflexivity); try lra;
      try apply Forall2_Qeq_refl; try exact IH.
Qed.

Lemma Forall2_Qeq_trans s1 s2 s3 :
  Forall2 Qeq s1 s2 → Forall2 Qeq s2 s3 → Forall2 Qeq s1 s3.
Proof.
  intros H12. revert s3. induction H12 as [|a b s1 s2 Hab _ IH]; intros s3 H23.
  - by inversion H23.
  - inversion H23 as [|b' c s2' s3' Hbc H23']; subst.
    constructor; [by rewrite Hab|by apply IH].
Qed.

(** Sorting two arrangements of the same samples gives the same numbers at
    every rank. *)
Lemma sorted_Permutation l l' : l ≡ₚ l' → Forall2 Qeq (sorted l) (sorted l').
Proof.
  induction 1 as [|x l l' _ IH|x y l|l1 l2 l3 _ IH1 _ IH2]; unfold sorted in *; simpl.
  - constructor.
  - by apply insert_sorted_Qeq.
  - apply insert_sorted_swap.
  - by eapply Forall2_Qeq_trans.
Qed.


Lemma traverse_Permutation {A B} (f : A → result B) (l l' : list A) :
  l ≡ₚ l' → ∀ ys, traverse f l = Ok ys →
  ∃ ys', traverse f l' = Ok ys' ∧ ys ≡ₚ ys'.
Proof.
  induction 1 as [|x l l' _ IH|x y l|l1 l2 l3 _ IH1 _ IH2]; intros ys; simpl.
  - intros [= <-]. by exists [].
  - destruct (f x) as [b|e]; [|done]. cbn [mbind result_bind].
    destruct (traverse f l) as [bs|e]; [|done]. cbn [mbind result_bind].
    intros [= <-]. destruct (IH bs eq_refl) as (bs' & -> & Hp).
    exists (b :: bs'). split; [done|by constructor].
  - destruct (f y) as [b|e]; [|done]. cbn [mbind result_bind].
    destruct (f x) as [a|e]; [|done]. cbn [mbind result_bind].
    destruct (traverse f l) as [bs|e]; [|done]. cbn [mbind result_bind].
    intros [= <-]. exists (a :: b :: bs). split; [done|apply Permutation_swap].
  - intros H1. destruct (IH1 ys H1) as (ys2 & H2 & Hp2).
    destruct (IH2 ys2 H2) as (ys3 & H3 & Hp3).
    exists ys3. split; [done|by etrans].
Qed.

Lemma consistent_latencies_Permutation results results' lat :
  results ≡ₚ results' → consistent_latencies results = Ok lat →
  ∃ lat', consistent_latencies results' = Ok lat' ∧ lat ≡ₚ lat'.
Proof.
  intros Hp. apply traverse_Permutation. by rewrite Hp.
Qed.

Lemma count_if_Permutation {A} (p : A → bool) (l l' : list A) :
  l ≡ₚ l' → count_if p l = count_if p l'.
Proof. intros Hp. unfold count_if. by rewrite Hp. Qed.

Lemma py_index_Qeq s s' i a :
  Forall2 Qeq s s' → py_index s i = Ok a →
  ∃ b, py_index s' i = Ok b ∧ (a == b)%Q.
Proof.
  intros Hs. unfold py_index. rewrite <- (Forall2_length _ _ _ Hs).
  destruct (_ && _); [|done].
  destruct (s !! _) as [a'|] eqn:Ea; [|done]. intros [= <-].
  destruct (Forall2_lookup_l _ _ _ _ _ Hs Ea) as (b & Eb & Hab).
  exists b. by rewrite Eb.
Qed.

Lemma foldl_max2_Permutation x l x' l' :
  x :: l ≡ₚ x' :: l' → (foldl max2 x l == foldl max2 x' l')%Q.
Proof.
  intros Hp. apply Qle_antisym; apply foldl_max2_ub.
  - assert (H : foldl max2 x l ∈ x' :: l')
      by (rewrite <- Hp; destruct (foldl_max2_in l x) as [->|?]; [left|by right]).
    apply elem_of_cons in H. tauto.
  - assert (H : foldl max2 x' l' ∈ x :: l)
      by (rewrite Hp; destruct (foldl_max2_in l' x') as [->|?]; [left|by right]).
    apply elem_of_cons in H. tauto.
Qed.

Lemma foldl_min2_Permutation x l x' l' :
  x :: l ≡ₚ x' :: l' → (foldl min2 x l == foldl min2 x' l')%Q.
Proof.
  intros Hp. apply Qle_antisym; apply foldl_min2_lb.
  - assert (H : foldl min2 x' l' ∈ x :: l)
      by (rewrite Hp; destruct (foldl_min2_in l' x') as [->|?]; [left|by right]).
    apply elem_of_cons in H. tauto.
  - assert (H : foldl min2 x l ∈ x' :: l')
      by (rewrite <- Hp; destruct (foldl_min2_in l x) as [->|?]; [left|by right]).
    apply elem_of_cons in H. tauto.
Qed.

Lemma same_value_refl v : same_value v v.
Proof. destruct v; simpl; reflexivity. Qed.

Lemma same_report_refl d : same_report d d.
Proof. intros k. destruct (d !! k); [apply same_value_refl|done]. Qed.

Lemma same_report_insert k v v' (d d' : gmap string value) :
  same_value v v' → same_report d d' →
  same_report (<[k := v]> d) (<[k := v']> d').
Proof.
  intros Hv Hd j. destruct (decide (k = j)) as [->|Hne].
  - by rewrite !lookup_insert_eq.
  - rewrite !lookup_insert_ne by done. apply Hd.
Qed.

(** The report does not depend on the order in which the results are
    listed: every entry is the same number. *)
Theorem report_independent_of_order results results' d :
  results ≡ₚ results' →
  _analyze_results results = Ok d →
  ∃ d', _analyze_results results' = Ok d' ∧ same_report d d'.
Proof.
  intros Hp Hd.
  destruct (consistent_latencies results) as [lat|e] eqn:Hlat;
    [|destruct results; [done|];
      unfold _analyze_results in Hd; by rewrite Hlat in Hd].
  destruct (consistent_latencies_Permutation _ _ _ Hp Hlat) as (lat' & Hlat' & Hpl).
  destruct lat as [|x l].
  - apply Permutation_nil_l in Hpl; subst lat'.
    destruct results as [|r rs].
    { apply Permutation_nil_l in Hp; subst results'.
      exists d. split; [done|apply same_report_refl]. }
    destruct results' as [|r' rs']; [by apply Permutation_nil_r in Hp|].
    unfold _analyze_results in Hd |- *. rewrite Hlat in Hd. rewrite Hlat'.
    cbn [mbind result_bind] in Hd |- *. injection Hd as <-.
    eexists. split; [reflexivity|].
    change (S (length rs)) with (length (r :: rs)). rewrite (Permutation_length Hp).
    apply same_report_refl.
  - destruct lat' as [|x' l']; [by apply Permutation_nil_r in Hpl|].
    destruct (analyze_results_report _ _ _ Hlat) as (p50 & p90 & p99 & E50 & E90 & E99 & E).
    destruct (analyze_results_report _ _ _ Hlat')
      as (q50 & q90 & q99 & F50 & F90 & F99 & F).
    rewrite E in Hd. injection Hd as <-.
    eexists. split; [exact F|].
    pose proof (sorted_Permutation _ _ Hpl) as Hs.
    assert (Hn : length (sorted (x :: l)) = length (sorted (x' :: l')))
      by (by apply Forall2_length in Hs).
    rewrite <- Hn in F50, F90, F99.
    destruct (py_index_Qeq _ _ _ _ Hs E50) as (b50 & G50 & H50).
    destruct (py_index_Qeq _ _ _ _ Hs E90) as (b90 & G90 & H90).
    assert (∃ b99, (if 100 <? Z.of_nat (length (sorted (x :: l)))
                    then py_index (sorted (x' :: l'))
                           (int_ (inject_Z (Z.of_nat (length (sorted (x :: l))))
                                  * (99 # 100)))
                    else py_index (sorted (x' :: l')) (-1)) = Ok b99
                   ∧ (p99 == b99)%Q) as (b99 & G99 & H99).
    { destruct (100 <? _); by eapply py_index_Qeq. }
    rewrite G50 in F50. rewrite G90 in F90. rewrite G99 in F99.
    injection F50 as <-. injection F90 as <-. injection F99 as <-.
    rewrite (Permutation_length Hp).
    rewrite (count_if_Permutation (λ r, get_truthy r "consistent") _ _ Hp).
    rewrite (count_if_Permutation (λ r, get_truthy r "within_slo") _ _ Hp).
    repeat (apply same_report_insert; [try apply same_value_refl; try done|]).
    + by apply foldl_max2_Permutation.
    + by apply foldl_min2_Permutation.
    + apply same_report_refl.
Qed.

Lemma report_independent_of_order_witness :
  ∃ d', _analyze_results [consistent_after 80; consistent_after 120; never_consistent]
          = Ok d' ∧
        same_report
          (<["total_events" := VInt 3]>
          (<["consistent_count" := VInt 2]>
          (<["within_slo_count" := VInt 2]>
          (<["slo_percentage" := VNum (inject_Z 2 / inject_Z 3 * 100)]>
          (<["p50_latency_ms" := VNum 120]>
          (<["p90_latency_ms" := VNum 120]>
          (<["p99_latency_ms" := VNum 120]>
          (<["max_latency_ms" := VNum 120]>
          (<["min_latency_ms" := VNum 80]> ∅))))))))) d'.
Proof.
  apply (report_independent_of_order
           [consistent_after 120; never_consistent; consistent_after 80]
           [consistent_after 80; consistent_after 120; never_consistent]).
  - apply (Permutation_app_comm [consistent_after 120; never_consistent]
             [consistent_after 80]).
  - reflexivity.
Defined.

End OrderExtras.

(** ** The batch and the test functions *)
Module BatchExtras.
Import Consistency ConsistencyTests Examples Scenarios ConsistencyProofs ReportExtras.

(** Whatever the probes do, the batch returns a report. When no probe
    returned a result (all raised, or none was run) the report is the lone
    ["error": "No results"] entry; otherwise its [total_events] is the
    number of probes that returned. *)
Theorem batch_always_reports slo apis :
  ∃ report,
    test_placement_consistency slo apis = Ok report ∧
    match omap (task_result slo) apis with
    | [] => report = <["error" := VStr "No results"]> ∅
    | returned =>
        report !! "total_events" = Some (VInt (Z.of_nat (length returned)))
    end.
Proof.
  unfold test_placement_consistency.
  pose proof (gather_probe_results slo apis) as Hwf.
  rewrite dicts_only_gather in *.
  destruct (omap (task_result slo) apis) as [|r rs] eqn:E.
  - by eexists.
  - rewrite <- E in *. destruct (consistent_latencies_total _ Hwf) as [[|x l] Hlat].
    + rewrite E. rewrite E in Hlat. unfold _analyze_results. rewrite Hlat.
      cbn [mbind result_bind]. eexists. split; reflexivity.
    + destruct (analyze_results_report _ _ _ Hlat) as (p50 & p90 & p99 & _ & _ & _ & Hd).
      rewrite Hd. eexists. split; reflexivity.
Qed.

(** A probe of a system that never shows [file_url] does not return a
    consistent result. *)
Lemma run_task_never_populated slo api d w :
  never_populated api → run_task slo api = (Returned d, w) →
  get_truthy d "consistent" = false.
Proof.
  intros Hnever Hrun.
  destruct (post api) as [response|e] eqn:Hpost;
    [|revert Hrun; run_to_post; by rewrite Hpost].
  destruct (decide (status_code response = 201)) as [Hs|Hs];
    [|rewrite (run_task_write_failed _ _ _ Hpost Hs) in Hrun;
      by injection Hrun as <- <-].
  destruct (json_data_id response) as [pid|e] eqn:Hid;
    [|revert Hrun; run_to_post; rewrite Hpost; simpl; rewrite Hs; simpl;
      by rewrite Hid].
  destruct (poll_loop_spec api pid (int_ (slo * 10)) (Z.to_nat (int_ (slo * 10))) 0
              {| now := (boot_time api + post_secs api)%Q;
                 trace := [EvPost (uuid4 api)] |})
    as (c & pc & w' & Hloop & _ & _ & _ & Ht & _); [lia|lia|].
  rewrite (run_task_write_ok _ _ _ _ Hpost Hs Hid _ _ _ Hloop) in Hrun.
  injection Hrun as <- <-.
  destruct c; [|reflexivity].
  destruct (Ht eq_refl) as [_ Hp]. by rewrite Hnever in Hp.
Qed.

Lemma gather_never_populated slo apis :
  Forall never_populated apis →
  Forall (λ r, get_truthy r "consistent" = false) (dicts_only (gather slo apis)).
Proof.
  induction 1 as [|api apis Hapi _ IH]; simpl; [constructor|].
  destruct (run_task slo api) as [[d|e|] w] eqn:E; simpl; [|done..].
  constructor; [by eapply run_task_never_populated|done].
Qed.

(** Against a system that never shows [file_url] on any read, the SLO test
    does not reach its assertion: reading the report raises [KeyError]. *)
Theorem slo_test_key_error_without_consistency slo api_of :
  (∀ i, never_populated (api_of i)) →
  ∃ k, test_placement_consistency_slo slo api_of = TestError (KeyError k) ∧
       (k = "total_events" ∨ k = "within_slo_count").
Proof.
  intros Hnever.
  assert (H : Forall (λ r, get_truthy r "consistent" = false)
                (dicts_only (gather slo (clients api_of 50)))).
  { apply gather_never_populated, Forall_forall. intros api Hin.
    apply list_elem_of_fmap in Hin as (i & -> & _). apply Hnever. }
  unfold test_placement_consistency_slo, test_placement_consistency.
  destruct (dicts_only (gather slo (clients api_of 50))) as [|r rs] eqn:E.
  - exists "total_events". split; [reflexivity|by left].
  - unfold _analyze_results. rewrite (consistent_latencies_none _ H).
    cbn [mbind result_bind].
    exists "within_slo_count". split; [reflexivity|by right].
Qed.

Lemma slo_test_key_error_without_consistency_witness :
  ∃ k, test_placement_consistency_slo 5 (λ _, stalled_api) = TestError (KeyError k) ∧
       (k = "total_events" ∨ k = "within_slo_count").
Proof.
  apply (slo_test_key_error_without_consistency 5 (λ _, stalled_api)).
  intros i k. reflexivity.
Defined.

Lemma check_slo_report (total cc within : Z) (p50 p90 p99 mx mn : Q) :
  0 < total →
  check_slo
    (<["total_events" := VInt total]>
    (<["consistent_count" := VInt cc]>
    (<["within_slo_count" := VInt within]>
    (<["slo_percentage" := VNum (inject_Z within / inject_Z total * 100)]>
    (<["p50_latency_ms" := VNum p50]>
    (<["p90_latency_ms" := VNum p90]>
    (<["p99_latency_ms" := VNum p99]>
    (<["max_latency_ms" := VNum mx]>
    (<["min_latency_ms" := VNum mn]> ∅)))))))))
  = if decide (95 * total <= 100 * within) then TestPassed else AssertionFailed.
Proof.
  intros Hpos.
  assert (HT : (0 < inject_Z total)%Q) by by apply inject_Z_pos.
  assert (Heq : (inject_Z within / inject_Z total * 100
                 == 100 * inject_Z within / inject_Z total)%Q) by (field; lra).
  match goal with |- check_slo ?d = _ => set (report := d) end.
  assert (H1 : getitem report "total_events" = Ok (VInt total)) by reflexivity.
  assert (H2 : getitem report "consistent_count" = Ok (VInt cc)) by reflexivity.
  assert (H3 : getitem report "within_slo_count" = Ok (VInt within)) by reflexivity.
  assert (H4 : getitem report "slo_percentage"
               = Ok (VNum (inject_Z within / inject_Z total * 100)))
    by reflexivity.
  clearbody report. unfold check_slo. rewrite H1, H2, H3, H4.
  cbn [mbind result_bind as_number].
  destruct (decide (95 * total <= 100 * within)) as [Hle|Hgt].
  - assert (Hq : (95 * inject_Z total <= 100 * inject_Z within)%Q).
    { change 95%Q with (inject_Z 95). change 100%Q with (inject_Z 100).
      rewrite <- !inject_Z_mult, <- Zle_Qle. done. }
    replace (Qle_bool 95 _) with true; [done|]. symmetry. apply Qle_bool_iff.
    rewrite Heq. apply Qle_shift_div_l; lra.
  - assert (Hq : (100 * inject_Z within < 95 * inject_Z total)%Q).
    { change 95%Q with (inject_Z 95). change 100%Q with (inject_Z 100).
      rewrite <- !inject_Z_mult, <- Zlt_Qlt. lia. }
    replace (Qle_bool 95 _) with false; [done|]. symmetry. apply Qle_bool_false.
    rewrite Heq. apply Qlt_shift_div_r; lra.
Qed.

Lemma check_slo_analyzed results r :
  Forall probe_result results →
  r ∈ results → get_truthy r "consistent" = true →
  ∃ report, _analyze_results results = Ok report ∧
    check_slo report
    = if decide (95 * Z.of_nat (length results)
                 <= 100 * count_if (λ r, get_truthy r "within_slo") results)
      then TestPassed else AssertionFailed.
Proof.
  intros Hwf Hr Hc.
  destruct (consistent_latencies_total results Hwf) as [lat Hlat].
  destruct lat as [|x l].
  { apply traverse_length in Hlat. simpl in Hlat.
    assert (Hin : r ∈ filter (λ r, get_truthy r "consistent" = true) results)
      by by apply list_elem_of_filter.
    destruct (filter _ results); [by apply elem_of_nil in Hin|done]. }
  destruct (analyze_results_report _ _ _ Hlat) as (p50 & p90 & p99 & _ & _ & _ & E).
  eexists. split; [exact E|].
  apply check_slo_report.
  destruct results; [by apply elem_of_nil in Hr|simpl; lia].
Qed.

(** When at least one probe returns a consistent result, the SLO test
    passes if [95 * total <= 100 * within], the counts being taken over the
    probes that returned, and fails its assertion otherwise. *)
Theorem slo_test_verdict slo api_of r :
  r ∈ dicts_only (gather slo (clients api_of 50)) →
  get_truthy r "consistent" = true →
  test_placement_consistency_slo slo api_of
  = if decide (95 * Z.of_nat (length (dicts_only (gather slo (clients api_of 50))))
               <= 100 * count_if (λ r, get_truthy r "within_slo")
                          (dicts_only (gather slo (clients api_of 50))))
    then TestPassed else AssertionFailed.
Proof.
  intros Hr Hc.
  destruct (check_slo_analyzed _ r (gather_probe_results slo (clients api_of 50)) Hr Hc)
    as (report & E & Hcheck).
  unfold test_placement_consistency_slo, test_placement_consistency.
  rewrite E. exact Hcheck.
Qed.

Lemma slo_test_verdict_witness :
  test_placement_consistency_slo 5 (λ _, converging_api)
  = if decide (95 * Z.of_nat (length (dicts_only
                                        (gather 5 (clients (λ _, converging_api) 50))))
               <= 100 * count_if (λ r, get_truthy r "within_slo")
                          (dicts_only (gather 5 (clients (λ _, converging_api) 50))))
    then TestPassed else AssertionFailed.
Proof.
  assert (Hrun : ∃ d w, run_task 5 converging_api = (Returned d, w) ∧
                        get_truthy d "consistent" = true).
  { eexists _, _. split.
    - apply (run_task_write_ok _ converging_api accepted (VStr "p1")); [reflexivity..|].
      vm_compute. reflexivity.
    - reflexivity. }
  destruct Hrun as (d & w & Hrun & Hc).
  apply (slo_test_verdict 5 (λ _, converging_api) d); [|exact Hc].
  rewrite dicts_only_gather. apply list_elem_of_omap. exists converging_api. split.
  - apply list_elem_of_fmap. exists 0%nat. split; [reflexivity|].
    apply elem_of_seq. lia.
  - unfold task_result. by rewrite Hrun.
Defined.

End BatchExtras.

Module WriteLatencyExtras.
Import Consistency ConsistencyTests Examples Scenarios ConsistencyProofs ReportExtras.

Lemma task_write_latency slo api :
  write_accepted api = true →
  ∃ d w, run_task slo api = (Returned d, w) ∧
         d !! "write_latency_ms" = Some (VNum (write_latency_ms api)).
Proof.
  unfold write_accepted. intros Hacc.
  destruct (post api) as [response|e] eqn:Hpost; [|done].
  apply andb_true_iff in Hacc as [Hs Hid]. apply Z.eqb_eq in Hs.
  destruct (json_data_id response) as [pid|e] eqn:Hpid; [|done].
  destruct (poll_loop_spec api pid (int_ (slo * 10)) (Z.to_nat (int_ (slo * 10))) 0
              {| now := (boot_time api + post_secs api)%Q;
                 trace := [EvPost (uuid4 api)] |})
    as (c & pc & w' & Hloop & _); [lia|lia|].
  eexists _, _. split; [by eapply run_task_write_ok|]. reflexivity.
Qed.

Lemma task_no_write_latency slo api d w :
  write_accepted api = false →
  run_task slo api = (Returned d, w) →
  d !! "write_latency_ms" = None.
Proof.
  unfold write_accepted. intros Hacc Hrun.
  destruct (post api) as [response|e] eqn:Hpost;
    [|revert Hrun; run_to_post; by rewrite Hpost].
  destruct (decide (status_code response = 201)) as [Hs|Hs].
  - rewrite Hs in Hacc. simpl in Hacc.
    destruct (json_data_id response) as [pid|e] eqn:Hid; [done|].
    revert Hrun. run_to_post. rewrite Hpost. simpl. rewrite Hs. simpl.
    by rewrite Hid.
  - rewrite (run_task_write_failed _ _ _ Hpost Hs) in Hrun.
    by injection Hrun as <- <-.
Qed.

(** The write latencies read from the batch's results are those of the
    probes whose write was accepted, in the order of the tasks. *)
Lemma write_latencies_gather slo apis :
  write_latencies (dicts_only (gather slo apis))
  = Ok (map write_latency_ms (filter (λ api, write_accepted api = true) apis)).
Proof.
  unfold write_latencies.
  induction apis as [|api apis IH]; [done|].
  simpl. destruct (write_accepted api) eqn:Hacc.
  - destruct (task_write_latency slo api Hacc) as (d & w & Hrun & Hd).
    rewrite Hrun. simpl.
    rewrite filter_cons_True by (eexists; exact Hd).
    rewrite filter_cons_True by exact Hacc.
    assert (Hf : getitem d "write_latency_ms" ≫= as_number
                 = Ok (write_latency_ms api))
      by (unfold getitem; by rewrite Hd).
    cbn [traverse map]. rewrite Hf. cbn [mbind result_bind].
    by rewrite IH.
  - rewrite (filter_cons_False _ api) by (intros ?; congruence).
    destruct (run_task slo api) as [[d|e|] w] eqn:Hrun; simpl; [|done..].
    rewrite filter_cons_False; [done|].
    intros [v Hv]. by rewrite (task_no_write_latency _ _ _ _ Hacc Hrun) in Hv.
Qed.

(** Up to 100 samples, the rank [int(n * 0.99)] is the last one: the value
    read there is the largest sample. *)
Lemma p99_of_few_samples (l : list Q) :
  l ≠ [] → (length l <= 100)%nat →
  ∃ p, py_index (sorted l) (int_ (inject_Z (Z.of_nat (length l)) * (99 # 100))) = Ok p ∧
       p ∈ l ∧ ∀ y, y ∈ l → (y <= p)%Q.
Proof.
  intros Hne Hlen.
  assert (Hpos : (0 < length l)%nat) by (destruct l; [done|simpl; lia]).
  rewrite int_scale by lia.
  assert (Hidx : Z.of_nat (length l) * 99 / 100 = Z.of_nat (length l) - 1).
  { symmetry. apply Z.div_unique with (r := 100 - Z.of_nat (length l)); lia. }
  rewrite Hidx.
  destruct (py_index_nonneg (sorted l) (Z.of_nat (length l) - 1)) as (p & Ep & Lp);
    [rewrite sorted_length; lia|].
  exists p. split; [done|]. split.
  - rewrite <- (sorted_perm l). by eapply list_elem_of_lookup_2.
  - intros y Hy. rewrite <- (sorted_perm l) in Hy.
    apply list_elem_of_lookup_1 in Hy as [i Hi].
    eapply (StronglySorted_lookup_le _ (sorted_sorted l)); [|exact Hi|exact Lp].
    apply lookup_lt_Some in Hi. rewrite sorted_length in Hi. lia.
Qed.

Lemma check_write_latency_gather slo apis :
  (length apis <= 100)%nat →
  (check_write_latency (dicts_only (gather slo apis)) = TestPassed ↔
   ∀ api, api ∈ apis → write_accepted api = true → (write_latency_ms api < 500)%Q) ∧
  (check_write_latency (dicts_only (gather slo apis)) = TestPassed ∨
   check_write_latency (dicts_only (gather slo apis)) = AssertionFailed).
Proof.
  intros Hlen. unfold check_write_latency.
  destruct (analyze_results_total (dicts_only (gather slo apis))) as [report ->];
    [apply gather_probe_results|].
  rewrite write_latencies_gather.
  pose proof (length_filter (λ api, write_accepted api = true) apis) as Hf.
  destruct (filter (λ api, write_accepted api = true) apis) as [|a accepted] eqn:Hacc.
  - simpl. split; [|by left]. split; [|done]. intros _ api Hin Ha.
    assert (Habs : api ∈ filter (λ api, write_accepted api = true) apis)
      by by apply list_elem_of_filter.
    rewrite Hacc in Habs. by apply elem_of_nil in Habs.
  - destruct (p99_of_few_samples (map write_latency_ms (a :: accepted)))
      as (p & Ep & Hp & Hmax); [done|rewrite length_map; lia|].
    change (map write_latency_ms (a :: accepted))
      with (write_latency_ms a :: map write_latency_ms accepted) in *.
    cbv beta iota zeta. rewrite Ep.
    destruct (Qlt_bool p 500) eqn:Hlt.
    + apply Qlt_bool_true in Hlt. split; [|by left]. split; [|done].
      intros _ api Hin Ha.
      assert (Hy : write_latency_ms api ∈ write_latency_ms a :: map write_latency_ms accepted).
      { change (write_latency_ms api ∈ map write_latency_ms (a :: accepted)).
        apply list_elem_of_fmap. exists api. split; [done|].
        rewrite <- Hacc. by apply list_elem_of_filter. }
      specialize (Hmax _ Hy). lra.
    + apply Qlt_bool_false in Hlt. split; [|by right]. split; [done|].
      intros Hall. exfalso.
      change (p ∈ map write_latency_ms (a :: accepted)) in Hp.
      apply list_elem_of_fmap in Hp as (api & -> & Hin).
      rewrite <- Hacc in Hin. apply list_elem_of_filter in Hin as [Ha Hin].
      specialize (Hall api Hin Ha). lra.
Qed.

(** [test_write_latency] passes exactly when every one of its 20 probes
    whose write was accepted had its POST answered in under 500 ms (in
    particular when no write is accepted), and otherwise fails its
    assertion: it never ends with another exception. *)
Theorem write_latency_test_verdict api_of :
  (test_write_latency api_of = TestPassed ↔
   ∀ i, (i < 20)%nat → write_accepted (api_of i) = true →
        (post_secs (api_of i) * 1000 < 500)%Q) ∧
  (test_write_latency api_of = TestPassed ∨
   test_write_latency api_of = AssertionFailed).
Proof.
  unfold test_write_latency.
  destruct (check_write_latency_gather 5 (clients api_of 20)) as [Hiff Hcases].
  { unfold clients. rewrite length_map, length_seq. lia. }
  split; [|exact Hcases]. rewrite Hiff. split.
  - intros H i Hi Hacc.
    assert (Hin : api_of i ∈ clients api_of 20).
    { apply list_elem_of_fmap. exists i. split; [done|]. apply elem_of_seq. lia. }
    specialize (H _ Hin Hacc). unfold write_latency_ms in H. lra.
  - intros H api Hin Hacc. apply list_elem_of_fmap in Hin as (i & -> & Hi).
    apply elem_of_seq in Hi. specialize (H i ltac:(lia) Hacc).
    unfold write_latency_ms. lra.
Qed.

End WriteLatencyExtras.

(** ** Further properties of the producer *)
Module ProducerExtras.
Import Producer Examples Notions ProducerProofs.



Section Pacing.
Variable env : Env.
Variable cfg : ProducerConfig.t.
Hypothesis rate_pos : 0 < ProducerConfig.events_per_second cfg.
Hypothesis put_secs_nonneg : ∀ k, (0 <= put_secs env k)%Q.
Hypothesis sleep_lag_nonneg : ∀ k, (0 <= sleep_lag env k)%Q.
Abbreviation R := (inject_Z (ProducerConfig.events_per_second cfg)).






End Pacing.





(** Without ramp-up the delay between two events is [1 / events_per_second]
    at every non-negative elapsed time; if the clock reads earlier than the
    start of the run, computing the delay raises [ZeroDivisionError]. *)
Theorem no_ramp_up_interval cfg elapsed :
  ProducerConfig.ramp_up_seconds cfg = 0 →
  ProducerConfig.events_per_second cfg ≠ 0 →
  ((0 <= elapsed)%Q →
   interval cfg elapsed
   = Ok (1 / inject_Z (ProducerConfig.events_per_second cfg))%Q) ∧
  ((elapsed < 0)%Q → interval cfg elapsed = Err ZeroDivisionError).
Proof.
  intros Hramp Hrate. unfold interval, current_rate. rewrite Hramp.
  change (inject_Z 0) with 0%Q. split; intros He.
  - apply Qlt_bool_false in He. rewrite He. cbn [mbind result_bind].
    apply truediv_ok. by apply inject_Z_nonzero.
  - apply Qlt_bool_true in He. rewrite He. reflexivity.
Qed.

Lemma no_ramp_up_interval_witness :
  ((0 <= 3)%Q → interval short_run 3 = Ok (1 / inject_Z 10)%Q) ∧
  ((3 < 0)%Q → interval short_run 3 = Err ZeroDivisionError).
Proof.
  apply (no_ramp_up_interval short_run 3); [reflexivity|discriminate].
Defined.

End ProducerExtras.

(** ** The backpressure test *)

Module BackpressureProofs.
Import ConsistencyTests Backpressure.

Lemma count_status_cons p r rs :
  count_status p (r :: rs) = (if p (status r) then 1 else 0) + count_status p rs.
Proof.
  unfold count_status. destruct (p (status r)) eqn:E.
  - rewrite filter_cons_True by done. simpl. lia.
  - rewrite filter_cons_False by congruence. lia.
Qed.

Lemma server_errors_insert (status_codes : gmap Z Z) code v :
  server_errors (<[code := v]> status_codes)
  = server_errors status_codes
    + (if 500 <=? code then v - default 0 (status_codes !! code) else 0).
Proof.
  unfold server_errors.
  set (f := λ (k v acc : Z), if 500 <=? k then acc + v else acc).
  assert (Hcomm : ∀ (m : gmap Z Z) j1 j2 z1 z2 y,
            j1 ≠ j2 → m !! j1 = Some z1 → m !! j2 = Some z2 →
            f j1 z1 (f j2 z2 y) = f j2 z2 (f j1 z1 y)).
  { intros _ j1 j2 z1 z2 y _ _ _. unfold f.
    destruct (500 <=? j1), (500 <=? j2); lia. }
  destruct (status_codes !! code) as [old|] eqn:E.
  - rewrite <- insert_delete_eq.
    rewrite map_fold_insert_L; [|by apply Hcomm|by rewrite lookup_delete_eq].
    rewrite (map_fold_delete_L f 0 code old status_codes); [|by apply Hcomm|done].
    unfold f. simpl. destruct (500 <=? code); lia.
  - rewrite map_fold_insert_L; [|by apply Hcomm|done].
    unfold f. simpl. destruct (500 <=? code); lia.
Qed.

Lemma foldl_tally_lookup rs : ∀ (h : gmap Z Z) code,
  default 0 (foldl tally_step h rs !! code)
  = default 0 (h !! code) + count_status (λ c, bool_decide (c = code)) rs.
Proof.
  induction rs as [|r rs IH]; intros h code; simpl.
  - unfold count_status. simpl. lia.
  - rewrite IH, count_status_cons. unfold tally_step at 1. cbv zeta.
    destruct (decide (status r = code)) as [->|Hne].
    + rewrite lookup_insert_eq, bool_decide_eq_true_2 by done. simpl. lia.
    + rewrite lookup_insert_ne, bool_decide_eq_false_2 by done. lia.
Qed.

Lemma foldl_tally_errors rs : ∀ (h : gmap Z Z),
  server_errors (foldl tally_step h rs)
  = server_errors h + count_status (λ c, 500 <=? c) rs.
Proof.
  induction rs as [|r rs IH]; intros h; simpl.
  - unfold count_status. simpl. lia.
  - rewrite IH, count_status_cons. unfold tally_step at 1. cbv zeta.
    rewrite server_errors_insert. destruct (500 <=? status r); lia.
Qed.

Lemma foldl_tally_positive rs : ∀ (h : gmap Z Z),
  (∀ c v, h !! c = Some v → 0 < v) →
  ∀ c v, foldl tally_step h rs !! c = Some v → 0 < v.
Proof.
  induction rs as [|r rs IH]; intros h Hh c v; simpl; [apply Hh|].
  apply IH. intros c' v'. unfold tally_step.
  destruct (decide (status r = c')) as [->|Hne].
  - rewrite lookup_insert_eq. intros [= <-].
    destruct (h !! c') as [old|] eqn:E; simpl; [|lia].
    specialize (Hh _ _ E). lia.
  - rewrite lookup_insert_ne by done. apply Hh.
Qed.

(** After the counting loop, the entry of a status code is the number of
    replies with that code, there is no entry for a code that no reply
    has, and the sum over the codes of 500 and more is the number of
    replies with such a code. *)
Theorem tally_counts (responses : list Reply) :
  (∀ code, default 0 (tally responses !! code)
           = count_status (λ c, bool_decide (c = code)) responses) ∧
  (∀ code, tally responses !! code = None ↔
           count_status (λ c, bool_decide (c = code)) responses = 0) ∧
  server_errors (tally responses) = count_status (λ c, 500 <=? c) responses.
Proof.
  assert (Hlookup : ∀ code, default 0 (tally responses !! code)
           = count_status (λ c, bool_decide (c = code)) responses).
  { intros code. unfold tally. by rewrite foldl_tally_lookup, lookup_empty. }
  split; [exact Hlookup|]. split.
  - intros code. rewrite <- Hlookup. split; [by intros ->|].
    destruct (tally responses !! code) as [v|] eqn:E; [|done].
    simpl. intros ->. exfalso.
    unfold tally in E.
    apply foldl_tally_positive in E; [lia|].
    intros c v. by rewrite lookup_empty.
  - unfold tally. rewrite foldl_tally_errors. unfold server_errors. by rewrite map_fold_empty.
Qed.

Lemma count_5xx_of_attempts attempts (l : list nat) :
  count_status (λ c, 500 <=? c) (map make_request (map attempts l))
  = Z.of_nat (length (filter (λ i, answered_5xx (attempts i) = true) l)).
Proof.
  induction l as [|i l IH]; [done|].
  simpl map. rewrite count_status_cons, IH.
  assert (Hs : (500 <=? status (make_request (attempts i)))
               = answered_5xx (attempts i)).
  { unfold answered_5xx, make_request. by destruct (post (attempts i)). }
  rewrite Hs. destruct (answered_5xx (attempts i)) eqn:Ea.
  - rewrite filter_cons_True by done. rewrite length_cons. lia.
  - rewrite filter_cons_False by congruence. lia.
Qed.

(** The backpressure test passes exactly when fewer than 10 of its 100
    requests are answered with a status of 500 or more. A request whose
    POST raises is recorded with status 0 and is not counted: when every
    request raises, the test passes. *)
Theorem backpressure_test_verdict attempts :
  test_high_load_backpressure attempts
  = (if decide (Z.of_nat (length (filter (λ i, answered_5xx (attempts i) = true)
                                         (seq 0 100))) < 10)
     then TestPassed else AssertionFailed) ∧
  ((∀ i, ∃ message, post (attempts i) = Failed message) →
   test_high_load_backpressure attempts = TestPassed).
Proof.
  assert (E : test_high_load_backpressure attempts
    = if decide (Z.of_nat (length (filter (λ i, answered_5xx (attempts i) = true)
                                          (seq 0 100))) < 10)
      then TestPassed else AssertionFailed).
  { unfold test_high_load_backpressure, tally. cbv zeta.
    rewrite foldl_tally_errors, count_5xx_of_attempts.
    unfold server_errors at 1. rewrite map_fold_empty, Z.add_0_l.
    destruct (decide _) as [Hlt|Hge].
    - by apply Z.ltb_lt in Hlt as ->.
    - by apply Z.ltb_nlt in Hge as ->. }
  split; [exact E|].
  intros Hfail. rewrite E.
  replace (filter (λ i, answered_5xx (attempts i) = true) (seq 0 100))
    with (@nil nat); [done|].
  symmetry. generalize (seq 0 100). intros l.
  induction l as [|i l IH]; [done|].
  rewrite filter_cons_False; [done|].
  unfold answered_5xx. destruct (Hfail i) as [msg ->]. done.
Qed.

End BackpressureProofs.
